(** * eCFR dashboard: the ETL core, embedded and verified

    A shallow embedding of the extraction, transformation and load layers
    of the repository ([src/config/config.py], [src/etl/extract.py],
    [src/etl/transform.py], [src/etl/load.py]) and the properties its
    specification states about them.

    Python values are embedded as follows.
    - [str] is a sequence of Unicode code points ([pystr]).
    - The scalars that can occur in a decoded JSON document at a text
      position are [pyval]: [None], an [int] or a [str].
    - A [dict] read with fixed keys is a record whose fields are options,
      [None] standing for an absent key; a [dict] used as a table is a
      [gmap].
    - A raised exception is the [Raise] case of [result]. *)

From Stdlib Require Import ZArith NArith String Ascii List Lia DecimalString.
From stdpp Require Import gmap list.

Local Open Scope Z_scope.

(* ===================================================================== *)
(** * Python strings and values                                           *)
(* ===================================================================== *)

(** A Python [str]: its code points, in order. *)
Abbreviation pystr := (list N).

(** The code points of an ASCII literal. *)
Definition str (s : string) : pystr :=
  List.map N_of_ascii (list_ascii_of_string s).
Arguments str : simpl never.

Definition SPACE : N := 32%N.

(** [str.isspace] on one code point, which is also the class [\s] of a
    [str] pattern in [re]: TAB..CR, FS..US, space, NEL, NBSP and the
    Unicode space separators. *)
Definition isspace (c : N) : bool :=
  ((9 <=? c) && (c <=? 13) || (28 <=? c) && (c <=? 32)
   || (c =? 133) || (c =? 160) || (c =? 5760)
   || (8192 <=? c) && (c <=? 8202)
   || (c =? 8232) || (c =? 8233) || (c =? 8239) || (c =? 8287)
   || (c =? 12288))%N.
Arguments isspace : simpl never.

Inductive pyval :=
| PNone
| PInt (z : Z)
| PStr (s : pystr).

#[global] Instance pyval_eq_dec : EqDecision pyval.
Proof. solve_decision. Defined.

(** Truth value of a Python object in a condition. *)
Definition truthy (v : pyval) : bool :=
  match v with
  | PNone => false
  | PInt z => negb (z =? 0)
  | PStr [] => false
  | PStr (_ :: _) => true
  end.

(** [str(v)], as an f-string formats a value. *)
Definition py_str (v : pyval) : pystr :=
  match v with
  | PNone => str "None"
  | PInt z => str (NilZero.string_of_int (Z.to_int z))
  | PStr s => s
  end.

Inductive exn :=
| KeyError (key : pystr)
| TypeError
| ValueError (msg : pystr)
| Exception (msg : pystr)
| ServiceNotImplementedError (service_type : pyval)
| UnboundLocalError (variable : pystr)
| XMLSyntaxError
| IntegrityError (msg : pystr).

Inductive result (A : Type) :=
| Ok (a : A)
| Raise (e : exn).
Arguments Ok {A} a.
Arguments Raise {A} e.

#[global] Instance result_ret : MRet result := fun _ a => Ok a.
#[global] Instance result_bind : MBind result := fun _ _ f m =>
  match m with
  | Ok a => f a
  | Raise e => Raise e
  end.

(** A [for] loop whose body updates the loop state and may raise. *)
Fixpoint for_each {S A : Type} (body : S -> A -> result S) (st : S) (l : list A)
  : result S :=
  match l with
  | [] => Ok st
  | x :: l' => st' ← body st x; for_each body st' l'
  end.

(** [d[key]] on a field read from a dict: an absent key raises. *)
Definition getitem {A : Type} (key : string) (field : option A) : result A :=
  match field with
  | Some v => Ok v
  | None => Raise (KeyError (str key))
  end.

(** [d.get(key)]: an absent key reads as [None]. *)
Definition dict_get (field : option pyval) : pyval := default PNone field.

(** [sep.join(parts)]. *)
Fixpoint join (sep : pystr) (parts : list pystr) : pystr :=
  match parts with
  | [] => []
  | [p] => p
  | p :: rest => p ++ sep ++ join sep rest
  end.

(** [s.lstrip()], [s.rstrip()] and [s.strip()] without argument. *)
Fixpoint lstrip (s : pystr) : pystr :=
  match s with
  | [] => []
  | c :: r => if isspace c then lstrip r else s
  end.

Definition rstrip (s : pystr) : pystr := rev (lstrip (rev s)).

Definition strip (s : pystr) : pystr := rstrip (lstrip s).

(* ===================================================================== *)
(** * [etl/transform.py]: [DataTransformer.clean_text]                    *)
(* ===================================================================== *)

(** [re.sub(r'\s+', ' ', text)], scanning left to right: [in_run] tells
    that the previous character belonged to the whitespace run already
    replaced by one space. *)
Fixpoint sub_ws_runs (in_run : bool) (s : pystr) : pystr :=
  match s with
  | [] => []
  | c :: r =>
      if isspace c
      then (if in_run then sub_ws_runs true r else SPACE :: sub_ws_runs true r)
      else c :: sub_ws_runs false r
  end.

Definition re_sub_ws (s : pystr) : pystr := sub_ws_runs false s.

(** [re.sub] on something that is neither [str] nor bytes is a
    [TypeError]. *)
Definition clean_text (text : pyval) : result pystr :=
  if truthy text then
    match text with
    | PStr s => Ok (strip (re_sub_ws s))
    | _ => Raise TypeError
    end
  else Ok [].

(** The specification's reading of [cleanText]: the maximal runs of
    non-whitespace characters of the text ([str.split()] without
    argument), to be joined by single spaces.  A character that is not
    blank starts a new word when the rest begins with a blank (or is
    empty), and otherwise extends the first word of the rest. *)
Definition begins_blank (s : pystr) : bool :=
  match s with
  | [] => true
  | d :: _ => isspace d
  end.

Fixpoint words (s : pystr) : list pystr :=
  match s with
  | [] => []
  | c :: r =>
      if isspace c then words r
      else if begins_blank r then [c] :: words r
      else match words r with
           | w :: ws => (c :: w) :: ws
           | [] => [[c]]
           end
  end.

Definition collapse_and_trim (s : pystr) : pystr := join [SPACE] (words s).

(* ===================================================================== *)
(** * [etl/transform.py]: [DataTransformer.transform_admin_api]           *)
(* ===================================================================== *)

(** The admin payload, as [json] decoding hands it over.  In every record
    a field is [None] when the key is absent from the dict. *)

(** One entry of a [cfr_references] list. *)
Record json_reference := {
  j_title : option pyval;
  j_chapter : option pyval;
  j_part : option pyval
}.

(** An agency dict without its [children]: the keys the transform reads
    of a top-level agency and of a child alike. *)
Record json_agency := {
  j_name : option pyval;
  j_short_name : option pyval;
  j_display_name : option pyval;
  j_sortable_name : option pyval;
  j_slug : option pyval;
  j_cfr_references : option (list json_reference)
}.

(** A top-level entry of the [agencies] list. *)
Record json_top_agency := {
  j_agency : json_agency;
  j_children : option (list json_agency)
}.

Record json_payload := {
  j_agencies : option (list json_top_agency)
}.

(** The rows the transform emits. *)
Record cfr_reference := {
  title : pyval;
  chapter : pyval;
  part : pyval
}.

Record agency_row := {
  agency_id : Z;
  name : pystr;
  short_name : pystr;
  display_name : pystr;
  sortable_name : pystr;
  slug : pystr;
  parent_id : option Z;        (* [None] is Python's [None] *)
  cfr_references : list cfr_reference
}.

(** The parameter dict built by [Config]. *)
Abbreviation params_dict := (gmap pystr pyval).

(** [params['service']]. *)
Definition params_service (params : params_dict) : result pyval :=
  match params !! str "service" with
  | Some v => Ok v
  | None => Raise (KeyError (str "service"))
  end.

(** The comprehension that rebuilds each reference: three [ref.get]. *)
Definition copy_reference (ref : json_reference) : cfr_reference :=
  {| title := dict_get (j_title ref);
     chapter := dict_get (j_chapter ref);
     part := dict_get (j_part ref) |}.

(** The locals of the loop: [rows], [slug_to_id] and [next_id]. *)
Record admin_locals := {
  rows : list agency_row;
  slug_to_id : gmap pystr Z;
  next_id : Z
}.

(** [slug_to_id[agency_slug]]. *)
Definition slug_lookup (table : gmap pystr Z) (key : pystr) : result Z :=
  match table !! key with
  | Some i => Ok i
  | None => Raise (KeyError key)
  end.

(** Body of the inner loop, [for child in agency.get('children', [])]. *)
Definition child_body (agency_slug : pystr) (st : admin_locals) (child : json_agency)
  : result admin_locals :=
  child_slug ← getitem "slug" (j_slug child) ≫= clean_text;
  let child_cfr_refs := copy_reference <$> default [] (j_cfr_references child) in
  child_name ← getitem "name" (j_name child) ≫= clean_text;
  child_short_name ← clean_text (dict_get (j_short_name child));
  child_display_name ← clean_text (dict_get (j_display_name child));
  child_sortable_name ← clean_text (dict_get (j_sortable_name child));
  child_parent_id ← slug_lookup (slug_to_id st) agency_slug;
  let child_row :=
    {| agency_id := next_id st;
       name := child_name;
       short_name := child_short_name;
       display_name := child_display_name;
       sortable_name := child_sortable_name;
       slug := child_slug;
       parent_id := Some child_parent_id;
       cfr_references := child_cfr_refs |} in
  Ok {| rows := rows st ++ [child_row];
        slug_to_id := <[child_slug := next_id st]> (slug_to_id st);
        next_id := next_id st + 1 |}.

(** Body of the outer loop, [for agency in agencies]. *)
Definition agency_body (st : admin_locals) (agency : json_top_agency)
  : result admin_locals :=
  let parent_id_ := @None Z in
  agency_slug ← getitem "slug" (j_slug (j_agency agency)) ≫= clean_text;
  let agency_cfr_refs :=
    copy_reference <$> default [] (j_cfr_references (j_agency agency)) in
  agency_name ← getitem "name" (j_name (j_agency agency)) ≫= clean_text;
  agency_short_name ← clean_text (dict_get (j_short_name (j_agency agency)));
  agency_display_name ← clean_text (dict_get (j_display_name (j_agency agency)));
  agency_sortable_name ← clean_text (dict_get (j_sortable_name (j_agency agency)));
  let row :=
    {| agency_id := next_id st;
       name := agency_name;
       short_name := agency_short_name;
       display_name := agency_display_name;
       sortable_name := agency_sortable_name;
       slug := agency_slug;
       parent_id := parent_id_;
       cfr_references := agency_cfr_refs |} in
  let st1 :=
    {| rows := rows st ++ [row];
       slug_to_id := <[agency_slug := next_id st]> (slug_to_id st);
       next_id := next_id st + 1 |} in
  for_each (child_body agency_slug) st1 (default [] (j_children agency)).

Definition transform_admin_api (params : params_dict) (api_response : json_payload)
  : result (list agency_row) :=
  service ← params_service params;
  if decide (service = PStr (str "admin")) then
    let agencies := default [] (j_agencies api_response) in
    st ← for_each agency_body
           {| rows := []; slug_to_id := ∅; next_id := 1 |} agencies;
    Ok (rows st)
  else Raise (Exception (str "Wrong Service Called")).

(** What the claims say about the payload, in its own terms: the entries
    in emission order, each with the top-level agency that encloses it
    ([None] for a top-level agency itself). *)
Definition emission_order (agencies : list json_top_agency)
  : list (json_agency * option json_agency) :=
  flat_map (fun a => (j_agency a, None)
                       :: ((fun c => (c, Some (j_agency a))) <$> default [] (j_children a)))
           agencies.

(** [N + sum c_i]. *)
Definition agency_count (agencies : list json_top_agency) : nat :=
  length agencies
  + sum_list_with (fun a => length (default [] (j_children a))) agencies.

(** An entry the transform can clean: [name] and [slug] are present, and
    every text field holds a string, [None], or another falsy value. *)
Definition cleanable (v : pyval) : bool :=
  match v with
  | PInt z => z =? 0
  | _ => true
  end.

Definition well_formed_agency (e : json_agency) : bool :=
  match j_name e, j_slug e with
  | Some n, Some s =>
      cleanable n && cleanable s
      && cleanable (dict_get (j_short_name e))
      && cleanable (dict_get (j_display_name e))
      && cleanable (dict_get (j_sortable_name e))
  | _, _ => false
  end.

Definition well_formed_payload (p : json_payload) : bool :=
  forallb (fun a => well_formed_agency (j_agency a)
                    && forallb well_formed_agency (default [] (j_children a)))
          (default [] (j_agencies p)).

(** The fields of row [r] are those of entry [e], cleaned, and its
    references are those of [e], copied. *)
Definition row_of_entry (e : json_agency) (r : agency_row) : Prop :=
  (getitem "name" (j_name e) ≫= clean_text) = Ok (name r)
  /\ clean_text (dict_get (j_short_name e)) = Ok (short_name r)
  /\ clean_text (dict_get (j_display_name e)) = Ok (display_name r)
  /\ clean_text (dict_get (j_sortable_name e)) = Ok (sortable_name r)
  /\ (getitem "slug" (j_slug e) ≫= clean_text) = Ok (slug r)
  /\ cfr_references r = copy_reference <$> default [] (j_cfr_references e).

(** Row [r] was emitted for the entry [e] of [emission_order]: the fields
    are the entry's, and [parent_id] is null exactly for a top-level
    entry. *)
Definition emitted_from (e : json_agency * option json_agency) (r : agency_row)
  : Prop :=
  row_of_entry e.1 r /\ (parent_id r = None <-> e.2 = None).

(** A field of a reference reaches the row as it is in the payload; an
    absent key reads as [None]. *)
Definition passed_through (field : option pyval) (out : pyval) : Prop :=
  match field with
  | Some v => out = v
  | None => out = PNone
  end.

Definition reference_copied (ref : json_reference) (t : cfr_reference) : Prop :=
  passed_through (j_title ref) (title t)
  /\ passed_through (j_chapter ref) (chapter t)
  /\ passed_through (j_part ref) (part t).

(** The cleaned slug of an entry, as both loops compute it. *)
Definition cleaned_slug (e : json_agency) : result pystr :=
  getitem "slug" (j_slug e) ≫= clean_text.

(** No child carries, once cleaned, the slug of the agency enclosing it. *)
Definition child_slugs_differ (a : json_top_agency) : Prop :=
  Forall (fun c => cleaned_slug c <> cleaned_slug (j_agency a))
         (default [] (j_children a)).

(** The parent links the specification describes: null for a top-level
    agency, and for each of its children the id that agency received.
    [first] is the id of the first agency of the list. *)
Fixpoint declared_parent_ids (first : Z) (agencies : list json_top_agency)
  : list (option Z) :=
  match agencies with
  | [] => []
  | a :: rest =>
      let n := length (default [] (j_children a)) in
      None :: replicate n (Some first)
        ++ declared_parent_ids (first + 1 + Z.of_nat n) rest
  end.

(* ===================================================================== *)
(** * [etl/transform.py]: [DataTransformer.transform_versioner_api]       *)
(* ===================================================================== *)

(** An [lxml] element: tag, attributes, the text before its first child,
    its children in document order, and the text that follows its end
    tag.  [None] is an absent text.  Comments and processing instructions
    are not elements and are left out of the tree. *)
#[local] Set Warnings "-register-all".
Inductive element :=
| Element (tag : pystr) (attrib : gmap pystr pystr) (text : option pystr)
          (children : list element) (tail : option pystr).

Definition el_tag (e : element) : pystr :=
  match e with Element t _ _ _ _ => t end.
Definition el_attrib (e : element) : gmap pystr pystr :=
  match e with Element _ a _ _ _ => a end.
Definition el_text (e : element) : option pystr :=
  match e with Element _ _ t _ _ => t end.
Definition el_children (e : element) : list element :=
  match e with Element _ _ _ c _ => c end.
Definition el_tail (e : element) : option pystr :=
  match e with Element _ _ _ _ t => t end.

(** The elements below [e], in document order; [e] itself is not one. *)
Fixpoint descendants (e : element) : list element :=
  match e with
  | Element _ _ _ cs _ => flat_map (fun c => c :: descendants c) cs
  end.

Definition has_tag (tag : pystr) (e : element) : bool :=
  bool_decide (el_tag e = tag).

(** [e.findall('.//TAG')]. *)
Definition findall (tag : pystr) (e : element) : list element :=
  List.filter (has_tag tag) (descendants e).

(** [e.find('TAG')]: the first child with that tag. *)
Definition find (tag : pystr) (e : element) : option element :=
  List.find (has_tag tag) (el_children e).

(** [e.findtext('TAG')]: the text of the first child with that tag, the
    empty string for a child without text, [None] without such a child. *)
Definition findtext (tag : pystr) (e : element) : option pystr :=
  match find tag e with
  | Some h => Some (default [] (el_text h))
  | None => None
  end.

(** [e.get('N')]. *)
Definition get_attribute (key : pystr) (e : element) : option pystr :=
  el_attrib e !! key.

(** A Python [str] or [None] as a value of a row. *)
Definition of_optional (o : option pystr) : pyval :=
  match o with
  | Some s => PStr s
  | None => PNone
  end.

Definition some_list {A : Type} (o : option A) : list A :=
  match o with
  | Some a => [a]
  | None => []
  end.

(** [e.itertext()]: the text of [e], then for each child its own
    [itertext] followed by its tail. *)
Fixpoint itertext (e : element) : list pystr :=
  match e with
  | Element _ _ t cs _ =>
      some_list t ++ flat_map (fun c => itertext c ++ some_list (el_tail c)) cs
  end.

Record section_row := {
  title_number : pyval;
  title_head : pyval;
  chapter_number : pyval;
  chapter_head : pyval;
  subchapter_number : pyval;
  subchapter_head : pyval;
  part_number : pyval;
  part_head : pyval;
  section_number : pyval;
  section_title : pyval;
  body : pyval
}.

(** [(e.findtext('HEAD') or '').strip()]. *)
Definition head_text (e : element) : pystr :=
  strip (match findtext (str "HEAD") e with
         | Some ((_ :: _) as s) => s
         | _ => []
         end).

(** [' '.join(' '.join(p.itertext()).strip() for p in div8.findall('.//P'))]. *)
Definition body_text (div8 : element) : pystr :=
  join [SPACE]
       ((fun p => strip (join [SPACE] (itertext p))) <$> findall (str "P") div8).

Section Versioner.
(** [etree.fromstring] on the encoded text: the root element, or [None]
    where [lxml] raises [XMLSyntaxError]. *)
Variable fromstring : pystr -> option element.

Definition transform_versioner_api (params : params_dict) (api_response : pystr)
  : result (list section_row) :=
  service ← params_service params;
  if decide (service = PStr (str "versioner")) then
    match fromstring api_response with
    | None => Raise XMLSyntaxError
    | Some root =>
        Ok (div1 ← findall (str "DIV1") root;
            let title_number_ := of_optional (get_attribute (str "N") div1) in
            let title_head_ := PStr (head_text div1) in
            div3 ← findall (str "DIV3") div1;
            let chapter_number_ := of_optional (get_attribute (str "N") div3) in
            let chapter_head_ := PStr (head_text div3) in
            div4 ← findall (str "DIV4") div3;
            let subchapter_number_ := of_optional (get_attribute (str "N") div4) in
            let subchapter_head_ := PStr (head_text div4) in
            div5 ← findall (str "DIV5") div4;
            let part_number_ := of_optional (get_attribute (str "N") div5) in
            let part_head_ := PStr (head_text div5) in
            div8 ← findall (str "DIV8") div5;
            let section_number_ := of_optional (get_attribute (str "N") div8) in
            let section_title_ := PStr (head_text div8) in
            let body_ := PStr (body_text div8) in
            [ {| title_number := title_number_;
                 title_head := title_head_;
                 chapter_number := chapter_number_;
                 chapter_head := chapter_head_;
                 subchapter_number := subchapter_number_;
                 subchapter_head := subchapter_head_;
                 part_number := part_number_;
                 part_head := part_head_;
                 section_number := section_number_;
                 section_title := section_title_;
                 body := body_ |} ])
    end
  else Raise (Exception (str "Wrong Service Called")).
End Versioner.

(** The specification's reading of a heading: the trimmed text of the
    first [HEAD] child, the empty string without such a child. *)
Definition first_heading_trimmed (e : element) : pystr :=
  match List.find (has_tag (str "HEAD")) (el_children e) with
  | Some h => strip (default [] (el_text h))
  | None => []
  end.

(** The specification's reading of a number: the [N] attribute where the
    element has one, null where it has none. *)
Definition attribute_or_null (e : element) (out : pyval) : Prop :=
  match el_attrib e !! str "N" with
  | Some n => out = PStr n
  | None => out = PNone
  end.

(** [div1], ..., [div8] are nested as the five loops visit them. *)
Definition nested_in (root div1 div3 div4 div5 div8 : element) : Prop :=
  div1 ∈ findall (str "DIV1") root
  /\ div3 ∈ findall (str "DIV3") div1
  /\ div4 ∈ findall (str "DIV4") div3
  /\ div5 ∈ findall (str "DIV5") div4
  /\ div8 ∈ findall (str "DIV8") div5.

(* ===================================================================== *)
(** * [config/config.py]: [Config]                                        *)
(* ===================================================================== *)

Definition BASE_URL : pystr := str "https://www.ecfr.gov/".

(** [d[key]] on a dict used as a table. *)
Definition dict_getitem (d : params_dict) (key : string) : result pyval :=
  match d !! str key with
  | Some v => Ok v
  | None => Raise (KeyError (str key))
  end.

(** [Config.paramBuilder].  In the last branch the source builds a
    [ValueError] and drops it: the expression statement has no [raise]. *)
Definition paramBuilder (service : pystr) (user_params : params_dict)
  : result params_dict :=
  let params : params_dict := {[ str "service" := PStr service ]} in
  if decide (service = str "admin") then
    let params := <[str "base_url" := PStr BASE_URL]> params in
    let params := <[str "endpoint" := PStr (str "api/admin/v1/agencies.json")]> params in
    Ok params
  else if decide (service = str "versioner") then
    let params := <[str "base_url" := PStr BASE_URL]> params in
    date ← dict_getitem user_params "date";
    let params := <[str "date" := date]> params in
    title_ ← dict_getitem user_params "title";
    let params := <[str "title" := title_]> params in
    Ok params
  else
    let _ := ValueError (str "Unsupported service type: " ++ service) in
    Ok params.

(** The attributes [Config.__init__] sets. *)
Record Config := {
  config_service : pystr;
  config_user_params : params_dict;
  config_params : params_dict
}.

(** [Config(service, user_params)]; [user_params or {}] makes an absent
    mapping the empty one. *)
Definition Config_init (service : pystr) (user_params : option params_dict)
  : result Config :=
  let user_params_ := default ∅ user_params in
  params ← paramBuilder service user_params_;
  Ok {| config_service := service;
        config_user_params := user_params_;
        config_params := params |}.

(* ===================================================================== *)
(** * [etl/extract.py]: [DataExtractor]                                   *)
(* ===================================================================== *)

(** What one [requests.get] does: it raises a [RequestException] (no
    connection, timeout, ...), or it returns a response. *)
Inductive get_outcome :=
| RequestException
| Response (status_code : Z) (text : pystr).

(** What [extract_data] returns: the decoded JSON (admin) or the text of
    the response (versioner). *)
Inductive raw_payload :=
| RawJson (data : json_payload)
| RawText (xml_content : pystr).

Record DataExtractor := {
  base_url : pyval;
  endpoint : pyval;
  extractor_params : params_dict
}.

Definition DataExtractor_init (params : params_dict) : DataExtractor :=
  {| base_url := default PNone (params !! str "base_url");
     endpoint := default PNone (params !! str "endpoint");
     extractor_params := params |}.

(** [response.raise_for_status()] raises an [HTTPError], which is a
    [RequestException], for a status from 400 to 599. *)
Definition raises_for_status (status_code : Z) : bool :=
  (400 <=? status_code) && (status_code <? 600).

Section Extractor.
(** The network, and the JSON decoder behind [response.json()], which
    raises a [RequestException] of its own ([JSONDecodeError]) on a body
    that is not JSON: [None] here. *)
Variable requests_get : pystr -> get_outcome.
Variable response_json : pystr -> option json_payload.

(** The [try] block of the admin branch.  The result is the binding of
    the local [retrieved_data] after the [try] statement: [None] when the
    [except] clause ran, which only prints. *)
Definition try_fetch_admin (self : DataExtractor) : option json_payload :=
  match requests_get (py_str (base_url self) ++ str "/" ++ py_str (endpoint self)) with
  | RequestException => None
  | Response status_code text =>
      if raises_for_status status_code then None else response_json text
  end.

(** The [try] block of the versioner branch, after [date] and [title]
    were read: the binding of the local [xml_content]. *)
Definition try_fetch_versioner (self : DataExtractor) (date title_ : pyval)
  : option pystr :=
  let xml_endpoint :=
    str "api/versioner/v1/full/" ++ py_str date ++ str "/title-"
        ++ py_str title_ ++ str ".xml" in
  match requests_get (py_str (base_url self) ++ str "/" ++ xml_endpoint) with
  | RequestException => None
  | Response status_code text =>
      if raises_for_status status_code then None else Some text
  end.

(** Reading a local that was never bound. *)
Definition read_local {A : Type} (variable : string) (binding : option A)
  : result A :=
  match binding with
  | Some v => Ok v
  | None => Raise (UnboundLocalError (str variable))
  end.

Definition extract_data (self : DataExtractor) : result raw_payload :=
  let params := extractor_params self in
  if decide (params = ∅) then
    Raise (ValueError (str "The 'params' parameter cannot be null or empty."))
  else
    match params !! str "service" with
    | None => Raise (ValueError (str "Missing 'service' key in parameters."))
    | Some service =>
        if decide (service = PStr (str "admin")) then
          let retrieved_data := try_fetch_admin self in
          data ← read_local "retrieved_data" retrieved_data;
          Ok (RawJson data)
        else if decide (service = PStr (str "versioner")) then
          (* a [KeyError] is not a [RequestException]: it leaves the [try] *)
          date ← dict_getitem params "date";
          title_ ← dict_getitem params "title";
          let xml_content := try_fetch_versioner self date title_ in
          content ← read_local "xml_content" xml_content;
          Ok (RawText content)
        else Raise (ServiceNotImplementedError service)
    end.

(** The single GET of the admin branch did not give a usable response. *)
Definition admin_fetch_failed (self : DataExtractor) : Prop :=
  let url := py_str (base_url self) ++ str "/" ++ py_str (endpoint self) in
  requests_get url = RequestException
  \/ exists status_code text,
      requests_get url = Response status_code text
      /\ 400 <= status_code < 600.
End Extractor.

(* ===================================================================== *)
(** * [etl/load.py]: [DatabaseLoader]                                     *)
(* ===================================================================== *)

(** The columns of table [agencies] other than its key [agency_id]
    ([INTEGER PRIMARY KEY]); [slug] is [UNIQUE]. *)
Record agency_columns := {
  col_name : pystr;
  col_short_name : pystr;
  col_display_name : pystr;
  col_sortable_name : pystr;
  col_slug : pystr;
  col_parent_id : option Z
}.

#[global] Instance agency_columns_eq_dec : EqDecision agency_columns.
Proof. solve_decision. Defined.

(** A row of [cfr_references]. *)
Record reference_columns := {
  col_reference_id : Z;
  col_agency_id : Z;
  col_title : pyval;
  col_chapter : pyval;
  col_part : pyval
}.

(** The three tables.  [agencies] is keyed by its primary key; the two
    [AUTOINCREMENT] tables keep their rows in insertion order together
    with the largest key handed out so far. *)
Record database := {
  agencies_table : gmap Z agency_columns;
  cfr_sections_table : list (Z * section_row);
  cfr_sections_seq : Z;
  cfr_references_table : list reference_columns;
  cfr_references_seq : Z
}.

(** An open connection.  SQLite checks [FOREIGN KEY] clauses only on a
    connection on which [PRAGMA foreign_keys = ON] was executed; a new
    connection has it off. *)
Record connection := {
  foreign_keys : bool;
  db : database
}.

(** [sqlite3.connect(db_path)] on the database stored at that path. *)
Definition sqlite3_connect (stored : database) : connection :=
  {| foreign_keys := false; db := stored |}.

(** [create_tables]: three [CREATE TABLE IF NOT EXISTS].  A table that
    exists keeps its rows; a missing one is created empty, which is how
    [database] represents it already. *)
Definition create_tables (conn : connection) : connection := conn.

(** [DatabaseLoader(db_path)]. *)
Definition DatabaseLoader_init (stored : database) : connection :=
  create_tables (sqlite3_connect stored).

(** A value bound to a column of [TEXT] affinity: a number is stored as
    its text. *)
Definition text_affinity (v : pyval) : pyval :=
  match v with
  | PInt z => PStr (py_str (PInt z))
  | _ => v
  end.

Definition columns_of (agency : agency_row) : agency_columns :=
  {| col_name := name agency;
     col_short_name := short_name agency;
     col_display_name := display_name agency;
     col_sortable_name := sortable_name agency;
     col_slug := slug agency;
     col_parent_id := parent_id agency |}.

(** The rows that [INSERT OR REPLACE] of [agency] leaves in place: those
    that conflict with it neither on the primary key nor on the unique
    [slug]. *)
Definition without_conflicts (agency : agency_row) (table : gmap Z agency_columns)
  : gmap Z agency_columns :=
  filter (fun kv => kv.1 <> agency_id agency /\ col_slug kv.2 <> slug agency) table.

(** Some reference row points to an agency that is not in [table]. *)
Definition dangling_reference (table : gmap Z agency_columns)
    (references : list reference_columns) : bool :=
  existsb (fun r => bool_decide (table !! col_agency_id r = None)) references.

Definition FOREIGN_KEY_FAILED : exn :=
  IntegrityError (str "FOREIGN KEY constraint failed").

(** [insert_agency]: [INSERT OR REPLACE INTO agencies].  With foreign keys
    on, the statement fails when a row it deleted leaves a reference row
    without its agency. *)
Definition insert_agency (conn : connection) (agency : agency_row)
  : result connection :=
  let old := db conn in
  let table := <[agency_id agency := columns_of agency]>
                 (without_conflicts agency (agencies_table old)) in
  if foreign_keys conn
     && dangling_reference table
          (List.filter (fun r => bool_decide (is_Some (agencies_table old !! col_agency_id r)))
                       (cfr_references_table old))
  then Raise FOREIGN_KEY_FAILED
  else Ok {| foreign_keys := foreign_keys conn;
             db := {| agencies_table := table;
                      cfr_sections_table := cfr_sections_table old;
                      cfr_sections_seq := cfr_sections_seq old;
                      cfr_references_table := cfr_references_table old;
                      cfr_references_seq := cfr_references_seq old |} |}.

(** [insert_cfr_section]: a plain [INSERT] with a fresh [section_id]. *)
Definition insert_cfr_section (conn : connection) (section : section_row)
  : result connection :=
  let old := db conn in
  let section_id := cfr_sections_seq old + 1 in
  Ok {| foreign_keys := foreign_keys conn;
        db := {| agencies_table := agencies_table old;
                 cfr_sections_table := cfr_sections_table old ++ [(section_id, section)];
                 cfr_sections_seq := section_id;
                 cfr_references_table := cfr_references_table old;
                 cfr_references_seq := cfr_references_seq old |} |}.

(** [insert_cfr_reference]: a plain [INSERT] with a fresh [reference_id].
    With foreign keys on, the statement fails when [agency_id] is not a
    key of [agencies]. *)
Definition insert_cfr_reference (conn : connection) (agency_id_ : Z)
    (reference : cfr_reference) : result connection :=
  let old := db conn in
  let reference_id := cfr_references_seq old + 1 in
  let row :=
    {| col_reference_id := reference_id;
       col_agency_id := agency_id_;
       col_title := text_affinity (title reference);
       col_chapter := text_affinity (chapter reference);
       col_part := text_affinity (part reference) |} in
  if foreign_keys conn && dangling_reference (agencies_table old) [row]
  then Raise FOREIGN_KEY_FAILED
  else Ok {| foreign_keys := foreign_keys conn;
             db := {| agencies_table := agencies_table old;
                      cfr_sections_table := cfr_sections_table old;
                      cfr_sections_seq := cfr_sections_seq old;
                      cfr_references_table := cfr_references_table old ++ [row];
                      cfr_references_seq := reference_id |} |}.

(** [ETLPipeline.load_admin_data]: each agency, then its references. *)
Definition load_admin_data (conn : connection) (transformed : list agency_row)
  : result connection :=
  for_each
    (fun conn agency =>
       conn ← insert_agency conn agency;
       for_each (fun conn ref => insert_cfr_reference conn (agency_id agency) ref)
                conn (cfr_references agency))
    conn transformed.

Definition empty_database : database :=
  {| agencies_table := ∅;
     cfr_sections_table := [];
     cfr_sections_seq := 0;
     cfr_references_table := [];
     cfr_references_seq := 0 |}.

(** *** Fixtures *)

(** The parameters of [Config('admin')]. *)
Definition admin_params : params_dict :=
  {[ str "service" := PStr (str "admin");
     str "base_url" := PStr BASE_URL;
     str "endpoint" := PStr (str "api/admin/v1/agencies.json") ]}.

Definition txt (s : string) : option pyval := Some (PStr (str s)).

(** The fixture of the specification's end-to-end scenario. *)
Definition doe_fixture : json_payload :=
  {| j_agencies := Some
       [ {| j_agency :=
              {| j_name := txt "Department Of Examples";
                 j_short_name := txt "DOE";
                 j_display_name := txt "DOE";
                 j_sortable_name := txt "doe";
                 j_slug := txt "doe";
                 j_cfr_references := Some
                   [ {| j_title := txt "1"; j_chapter := txt "I";
                        j_part := Some (PStr []) |} ] |};
            j_children := Some
              [ {| j_name := txt "Sub Office";
                   j_short_name := txt "SO";
                   j_display_name := txt "SO";
                   j_sortable_name := txt "so";
                   j_slug := txt "so";
                   j_cfr_references := Some [] |} ] |} ] |}.

(** An agency entry carrying only [name] and [slug]. *)
Definition bare_agency (n s : string) : json_agency :=
  {| j_name := txt n; j_short_name := None; j_display_name := None;
     j_sortable_name := None; j_slug := txt s; j_cfr_references := None |}.

(** One agency whose first child repeats the agency's own slug. *)
Definition repeated_slug_fixture : json_payload :=
  {| j_agencies := Some
       [ {| j_agency := bare_agency "Agency" "a";
            j_children := Some
              [ bare_agency "First child" "a"; bare_agency "Second child" "b" ] |} ] |}.

(** One agency whose reference fields are not in [clean_text]'s normal
    form: blanks around the title, a number as chapter, no [part] key. *)
Definition raw_reference_fixture : json_payload :=
  {| j_agencies := Some
       [ {| j_agency :=
              {| j_name := txt "Agency"; j_short_name := None;
                 j_display_name := None; j_sortable_name := None;
                 j_slug := txt "a";
                 j_cfr_references := Some
                   [ {| j_title := txt " 1  2 "; j_chapter := Some (PInt 7);
                        j_part := None |} ] |};
            j_children := None |} ] |}.

(** The parameters of [Config('versioner', {'date': '2025-01-01',
    'title': '1'})]. *)
Definition versioner_params : params_dict :=
  {[ str "service" := PStr (str "versioner");
     str "base_url" := PStr BASE_URL;
     str "date" := PStr (str "2025-01-01");
     str "title" := PStr (str "1") ]}.

(** An element with the given [N] attribute, if any, and no tail. *)
Definition node (tag : string) (n : option string) (text : option string)
    (children : list element) : element :=
  Element (str tag)
          (match n with Some v => {[ str "N" := str v ]} | None => ∅ end)
          (str <$> text) children None.

(** One title, chapter, subchapter and part with two sections.  The
    subchapter has neither number nor heading; the second section has no
    number, no heading and no paragraph. *)
Definition title_fixture : element :=
  node "ECFR" None None
    [ node "DIV1" (Some "1"%string) None
        [ node "HEAD" None (Some " Title 1 "%string) [];
          node "DIV3" (Some "I"%string) None
            [ node "HEAD" None (Some "Chapter I"%string) [];
              node "DIV4" None None
                [ node "DIV5" (Some "1"%string) None
                    [ node "HEAD" None (Some "Part 1"%string) [];
                      node "DIV8" (Some "1.1"%string) None
                        [ node "HEAD" None (Some "Definitions."%string) [];
                          node "P" None (Some "First "%string)
                            [ Element (str "I") ∅ (Some (str "term")) []
                                      (Some (str " defined. ")) ];
                          node "P" None (Some "Second."%string) [] ];
                      node "DIV8" None None [] ] ] ] ] ].

(** A parser that knows this one document. *)
Definition title_fixture_parser (payload : pystr) : option element :=
  if decide (payload = str "<ECFR>...</ECFR>") then Some title_fixture else None.

Definition reference_1_I : cfr_reference :=
  {| title := PStr (str "1"); chapter := PStr (str "I"); part := PStr [] |}.

(** A stored database with two agencies, [a] under key 1 and [b] under
    key 2. *)
Definition two_agencies : database :=
  {| agencies_table :=
       {[ 1 := {| col_name := str "Agency A"; col_short_name := [];
                  col_display_name := []; col_sortable_name := [];
                  col_slug := str "a"; col_parent_id := None |};
          2 := {| col_name := str "Agency B"; col_short_name := [];
                  col_display_name := []; col_sortable_name := [];
                  col_slug := str "b"; col_parent_id := None |} ]};
     cfr_sections_table := [];
     cfr_sections_seq := 0;
     cfr_references_table := [];
     cfr_references_seq := 0 |}.

(** The two rows whose insertion into a new database stores
    [two_agencies]. *)
Definition agency_1 : agency_row :=
  {| agency_id := 1; name := str "Agency A"; short_name := [];
     display_name := []; sortable_name := []; slug := str "a";
     parent_id := None; cfr_references := [] |}.

Definition agency_2 : agency_row :=
  {| agency_id := 2; name := str "Agency B"; short_name := [];
     display_name := []; sortable_name := []; slug := str "b";
     parent_id := None; cfr_references := [] |}.

(** A second row for key 1 whose slug is now the one stored under key 2. *)
Definition agency_1_with_slug_b : agency_row :=
  {| agency_id := 1; name := str "Agency A"; short_name := [];
     display_name := []; sortable_name := []; slug := str "b";
     parent_id := None; cfr_references := [] |}.

(** A second row for key 1 that changes the name and keeps the slug. *)
Definition agency_1_renamed : agency_row :=
  {| agency_id := 1; name := str "Agency A, renamed"; short_name := [];
     display_name := []; sortable_name := []; slug := str "a";
     parent_id := None; cfr_references := [] |}.

(* ===================================================================== *)
(** * Further definitions                                                 *)
(* ===================================================================== *)

(** The exceptions a malformed agency entry can end the admin transform
    with: a missing [slug] or [name] key, or a text field that holds a
    number. *)
Definition malformed_entry_error (e : exn) : Prop :=
  e = KeyError (str "slug") \/ e = KeyError (str "name") \/ e = TypeError.

(** A string that [clean_text] leaves as it is. *)
Definition is_clean (s : pystr) : Prop := clean_text (PStr s) = Ok s.

(** What the loops of the admin transform keep true of their locals: the
    counter is positive, every id in the slug table was handed out
    already, and every parent link of a row points to an id handed out
    before the row's own. *)
Definition links_backwards (r : agency_row) : Prop :=
  forall p, parent_id r = Some p -> 1 <= p < agency_id r.

Definition admin_locals_consistent (st : admin_locals) : Prop :=
  1 <= next_id st
  /\ (forall k v, slug_to_id st !! k = Some v -> 1 <= v < next_id st)
  /\ Forall links_backwards (rows st).


(** The five tags the loops of the versioner transform look for, from
    the outermost to the innermost. *)
Definition nesting_levels : list pystr :=
  [str "DIV1"; str "DIV3"; str "DIV4"; str "DIV5"; str "DIV8"].

(** No element below [root] carries [tag]. *)
Definition tag_absent (tag : pystr) (root : element) : bool :=
  forallb (fun d => negb (has_tag tag d)) (descendants root).

(** A title whose chapter holds its part directly, without a subchapter
    ([DIV4]) in between. *)
Definition no_subchapter_fixture : element :=
  node "ECFR" None None
    [ node "DIV1" (Some "1"%string) None
        [ node "DIV3" (Some "I"%string) None
            [ node "DIV5" (Some "1"%string) None
                [ node "DIV8" (Some "1.1"%string) None
                    [ node "HEAD" None (Some "Definitions."%string) [];
                      node "P" None (Some "Text."%string) [] ] ] ] ] ].

(** The URL of the admin GET and of the versioner GET, as the f-strings
    of [extract_data] build them. *)
Definition admin_url (self : DataExtractor) : pystr :=
  py_str (base_url self) ++ str "/" ++ py_str (endpoint self).

Definition versioner_url (self : DataExtractor) (date title_ : pyval) : pystr :=
  py_str (base_url self) ++ str "/"
  ++ (str "api/versioner/v1/full/" ++ py_str date ++ str "/title-"
        ++ py_str title_ ++ str ".xml").

(** A response whose status [raise_for_status] lets through. *)
Definition passes_status (outcome : get_outcome) (text : pystr) : Prop :=
  exists status_code,
    outcome = Response status_code text /\ ~ (400 <= status_code < 600).

(** A network that answers the admin URL of [Config('admin')] with status
    304 and nothing else. *)
Definition not_modified_network (url : pystr) : get_outcome :=
  if decide (url = str "https://www.ecfr.gov//api/admin/v1/agencies.json")
  then Response 304 (str "{...}")
  else RequestException.

(** A network that answers one versioner URL with status 200. *)
Definition title_1_network (url : pystr) : get_outcome :=
  if decide (url = str "https://www.ecfr.gov//api/versioner/v1/full/2025-01-01/title-1.xml")
  then Response 200 (str "<ECFR>...</ECFR>")
  else RequestException.

(** [ETLPipeline.load_versioner_data]: one [insert_cfr_section] per row. *)
Definition load_versioner_data (conn : connection) (transformed : list section_row)
  : result connection :=
  for_each insert_cfr_section conn transformed.

(** The [UNIQUE] constraint on [slug]: no two keys hold the same slug. *)
Definition unique_slugs (table : gmap Z agency_columns) : Prop :=
  forall k1 k2 r1 r2,
    table !! k1 = Some r1 -> table !! k2 = Some r2 ->
    col_slug r1 = col_slug r2 -> k1 = k2.


(** What a reference row holds besides its key. *)
Definition reference_content (r : reference_columns) : Z * pyval * pyval * pyval :=
  (col_agency_id r, col_title r, col_chapter r, col_part r).

(** What [load_admin_data] binds for the references of one agency row. *)
Definition bound_references (agency : agency_row) : list (Z * pyval * pyval * pyval) :=
  (fun ref => (agency_id agency, text_affinity (title ref),
               text_affinity (chapter ref), text_affinity (part ref)))
    <$> cfr_references agency.


(** Three rows as one run of the admin transform can return them: the
    second is a child of the first, and only the first two carry
    references. *)
Definition loaded_rows : list agency_row :=
  [ {| agency_id := 1; name := str "Agency A"; short_name := [];
       display_name := []; sortable_name := []; slug := str "a";
       parent_id := None;
       cfr_references := [ reference_1_I;
                           {| title := PInt 7; chapter := PNone; part := PNone |} ] |};
    {| agency_id := 2; name := str "Office"; short_name := [];
       display_name := []; sortable_name := []; slug := str "office";
       parent_id := Some 1; cfr_references := [ reference_1_I ] |};
    {| agency_id := 3; name := str "Agency C"; short_name := [];
       display_name := []; sortable_name := []; slug := str "c";
       parent_id := None; cfr_references := [] |} ].

(* ===================================================================== *)
(** * [etl/transform.py]: [transform_proxy]; [etl/etl_pipeline.py]        *)
(* ===================================================================== *)

(** What [transform_proxy] returns: the rows of one of the two
    transforms. *)
Inductive transformed :=
| AdminRows (agency_rows : list agency_row)
| SectionRows (cfr_data : list section_row).

(** What ends a call of this layer: an exception of [exn], or the
    [AttributeError] of a method that the payload's type does not have
    ([str.get], [dict.encode]). *)
Inductive failure :=
| Raised (e : exn)
| AttributeError (type_name attribute : pystr).

Definition lift_result {A B : Type} (f : A -> B) (r : result A) : B + failure :=
  match r with
  | Ok a => inl (f a)
  | Raise e => inr (Raised e)
  end.

(** The loader and the file behind it.  [view] is what the loader's own
    connection reads, its uncommitted statements included; [committed] is
    what the file holds, which is what any other connection reads and
    what is left when the loader's connection goes away.  [sqlite3] opens
    a transaction before an [INSERT] and leaves it open; the block
    [with self.conn:] commits when it ends, or rolls back when it is left
    by an exception. *)
Record session := {
  view : connection;
  committed : database
}.

Definition session_open (stored : database) : session :=
  {| view := DatabaseLoader_init stored; committed := stored |}.

Definition commit (s : session) : session :=
  {| view := view s; committed := db (view s) |}.

Definition rollback (s : session) : session :=
  {| view := {| foreign_keys := foreign_keys (view s); db := committed s |};
     committed := committed s |}.

(** A call on the loader: the session it leaves, and the exception it
    ended with, if any. *)
Definition ended := (session * option failure)%type.

(** [insert_agency], which is not inside a [with] block: the statement
    stays uncommitted. *)
Definition insert_agency_call (agency : agency_row) (s : session) : ended :=
  match insert_agency (view s) agency with
  | Ok conn => ({| view := conn; committed := committed s |}, None)
  | Raise e => (s, Some (Raised e))
  end.

(** [insert_cfr_reference] and [insert_cfr_section], each inside
    [with self.conn:]. *)
Definition insert_cfr_reference_call (agency_id_ : Z) (reference : cfr_reference)
    (s : session) : ended :=
  match insert_cfr_reference (view s) agency_id_ reference with
  | Ok conn => (commit {| view := conn; committed := committed s |}, None)
  | Raise e => (rollback s, Some (Raised e))
  end.

Definition insert_cfr_section_call (section : section_row) (s : session) : ended :=
  match insert_cfr_section (view s) section with
  | Ok conn => (commit {| view := conn; committed := committed s |}, None)
  | Raise e => (rollback s, Some (Raised e))
  end.

(** A [for] loop of calls: the first exception ends it. *)
Fixpoint each_call {A : Type} (call : A -> session -> ended) (l : list A)
    (s : session) : ended :=
  match l with
  | [] => (s, None)
  | x :: l' =>
      match call x s with
      | (s', None) => each_call call l' s'
      | (s', Some f) => (s', Some f)
      end
  end.

(** [ETLPipeline.load_admin_data] and [load_versioner_data] on what
    [transform_proxy] returned.  Rows of the other kind lack the first
    key the insertion reads. *)
Definition load_admin_data_call (data : transformed) (s : session) : ended :=
  match data with
  | AdminRows agency_rows =>
      each_call
        (fun agency s =>
           match insert_agency_call agency s with
           | (s', None) =>
               each_call (insert_cfr_reference_call (agency_id agency))
                         (cfr_references agency) s'
           | (s', Some f) => (s', Some f)
           end)
        agency_rows s
  | SectionRows [] => (s, None)
  | SectionRows (_ :: _) => (s, Some (Raised (KeyError (str "agency_id"))))
  end.

Definition load_versioner_data_call (data : transformed) (s : session) : ended :=
  match data with
  | SectionRows cfr_data => each_call insert_cfr_section_call cfr_data s
  | AdminRows [] => (s, None)
  | AdminRows (_ :: _) => (rollback s, Some (Raised (KeyError (str "title_number"))))
  end.

Record ETLPipeline := {
  admin_config : Config;
  versioner_config : Config;
  db_loader : session
}.

(** [ETLPipeline(user_params)] on the database stored at [data/cfr.db]:
    the two configurations first, the loader last. *)
Definition ETLPipeline_init (user_params : option params_dict) (stored : database)
  : result ETLPipeline :=
  admin_config_ ← Config_init (str "admin") None;
  versioner_config_ ← Config_init (str "versioner") user_params;
  Ok {| admin_config := admin_config_;
        versioner_config := versioner_config_;
        db_loader := session_open stored |}.

Section Pipeline.
Variable requests_get : pystr -> get_outcome.
Variable response_json : pystr -> option json_payload.
Variable fromstring : pystr -> option element.

(** [DataTransformer.transform_proxy]. *)
Definition transform_proxy (params : params_dict) (api_response : raw_payload)
  : transformed + failure :=
  match params_service params with
  | Raise e => inr (Raised e)
  | Ok service =>
      if decide (service = PStr (str "admin")) then
        match api_response with
        | RawJson data => lift_result AdminRows (transform_admin_api params data)
        | RawText _ => inr (AttributeError (str "str") (str "get"))
        end
      else if decide (service = PStr (str "versioner")) then
        match api_response with
        | RawText xml_content =>
            lift_result SectionRows
                        (transform_versioner_api fromstring params xml_content)
        | RawJson _ => inr (AttributeError (str "dict") (str "encode"))
        end
      else inr (Raised (ServiceNotImplementedError service))
  end.

(** One track of [run_pipeline]: extract, transform, load. *)
Definition run_track (config : Config)
    (load : transformed -> session -> ended) (s : session) : ended :=
  match extract_data requests_get response_json
                     (DataExtractor_init (config_params config)) with
  | Raise e => (s, Some (Raised e))
  | Ok raw_data =>
      match transform_proxy (config_params config) raw_data with
      | inr f => (s, Some f)
      | inl data => load data s
      end
  end.

(** [ETLPipeline.run_pipeline]: the admin track, then the versioner
    track. *)
Definition run_pipeline (self : ETLPipeline) : ended :=
  match run_track (admin_config self) load_admin_data_call (db_loader self) with
  | (s, None) => run_track (versioner_config self) load_versioner_data_call s
  | (s, Some f) => (s, Some f)
  end.
End Pipeline.


Definition no_references (agency : agency_row) : Prop := cfr_references agency = [].

(** A network that answers the two URLs of a run for title 1 on
    2025-01-01, and nothing else. *)
Definition run_network (url : pystr) : get_outcome :=
  if decide (url = str "https://www.ecfr.gov//api/admin/v1/agencies.json")
  then Response 200 (str "{...}")
  else title_1_network url.

Definition title_1_user_params : params_dict :=
  {[ str "date" := PStr (str "2025-01-01"); str "title" := PStr (str "1") ]}.

(* ===================================================================== *)
(** * [streamlit_app/app.py]: [get_titles_data] and [run_initial_etl]     *)
(* ===================================================================== *)

(** The decoded body of [titles.json]: the keys the orchestrator reads.
    The calls into the user interface ([st.write], the progress bar) have
    no part in what is fetched and stored and are left out. *)
Record json_title := {
  j_number : option pyval;
  j_latest_amended_on : option pyval
}.

Record json_titles := {
  j_titles : option (list json_title)
}.

Definition TITLES_URL : pystr :=
  str "https://www.ecfr.gov/api/versioner/v1/titles.json".

Definition FAILED_MESSAGE : pystr := str "ETL Pipeline failed due to API error.".
Definition COMPLETED_MESSAGE : pystr := str "ETL Pipeline completed.".

(** [range(1, 51)] without 35. *)
Definition scheduled_titles : list Z :=
  List.filter (fun n => negb (n =? 35)) (seqZ 1 50).

(** The dict comprehension of [run_initial_etl]:
    [{str(title['number']): title.get('latest_amended_on') ...}]. *)
Definition title_amendment_dates (titles : list json_title) : result params_dict :=
  for_each
    (fun (dates : params_dict) title =>
       number ← getitem "number" (j_number title);
       Ok (<[py_str number := dict_get (j_latest_amended_on title)]> dates))
    ∅ titles.

Section Orchestrator.
Variable requests_get : pystr -> get_outcome.
Variable response_json : pystr -> option json_payload.
Variable titles_json : pystr -> option json_titles.
Variable fromstring : pystr -> option element.
(** [date.today().strftime('%Y-%m-%d')]. *)
Variable today_str : pystr.

(** [get_titles_data]: here the [except] clause returns [None]. *)
Definition get_titles_data : option json_titles :=
  match requests_get TITLES_URL with
  | RequestException => None
  | Response status_code text =>
      if raises_for_status status_code then None else titles_json text
  end.

(** The [user_params] of one title. *)
Definition user_params_for (dates : params_dict) (title_number_int : Z) : params_dict :=
  let title_number_str := py_str (PInt title_number_int) in
  let latest_amended_on := default PNone (dates !! title_number_str) in
  if truthy latest_amended_on
  then {[ str "date" := latest_amended_on; str "title" := PStr title_number_str ]}
  else {[ str "date" := PStr today_str; str "title" := PStr title_number_str ]}.

(** One turn of the loop: a new pipeline on the file, and its run.  The
    file is left with what the run committed. *)
Definition run_title (dates : params_dict) (stored : database) (title_number_int : Z)
  : database * option failure :=
  match ETLPipeline_init (Some (user_params_for dates title_number_int)) stored with
  | Raise e => (stored, Some (Raised e))
  | Ok run =>
      match run_pipeline requests_get response_json fromstring run with
      | (s, outcome) => (committed s, outcome)
      end
  end.

Fixpoint run_titles (dates : params_dict) (stored : database) (numbers : list Z)
  : database * option failure :=
  match numbers with
  | [] => (stored, None)
  | n :: rest =>
      match run_title dates stored n with
      | (stored', None) => run_titles dates stored' rest
      | (stored', Some f) => (stored', Some f)
      end
  end.

(** [run_initial_etl] on the stored database: the database it leaves, and
    the message it returns or the exception it ends with. *)
Definition run_initial_etl (stored : database) : database * (pystr + failure) :=
  match get_titles_data with
  | None => (stored, inl FAILED_MESSAGE)
  | Some titles_data =>
      match j_titles titles_data with
      | None => (stored, inl FAILED_MESSAGE)
      | Some titles =>
          match title_amendment_dates titles with
          | Raise e => (stored, inr (Raised e))
          | Ok dates =>
              match run_titles dates stored scheduled_titles with
              | (stored', None) => (stored', inl COMPLETED_MESSAGE)
              | (stored', Some f) => (stored', inr f)
              end
          end
      end
  end.
End Orchestrator.

(** A network that answers every URL with status 200. *)
Definition always_ok_network (url : pystr) : get_outcome :=
  Response 200 (str "...").

(** The file and the loader's connection hold the same reference rows
    and the same section rows: only agency rows can be uncommitted. *)
Definition written_rows_committed (s : session) : Prop :=
  cfr_references_table (committed s) = cfr_references_table (db (view s))
  /\ cfr_sections_table (committed s) = cfr_sections_table (db (view s)).


(** The chain of elements that leads to the first section of
    [title_fixture]. *)
Definition fixture_div1 : element := nth 0 (el_children title_fixture) title_fixture.
Definition fixture_div3 : element := nth 1 (el_children fixture_div1) title_fixture.
Definition fixture_div4 : element := nth 1 (el_children fixture_div3) title_fixture.
Definition fixture_div5 : element := nth 0 (el_children fixture_div4) title_fixture.
Definition fixture_div8 : element := nth 1 (el_children fixture_div5) title_fixture.

(* ===================================================================== *)
(** * Properties                                                          *)
(* ===================================================================== *)

(** ** Whitespace normalisation *)

Lemma isspace_SPACE : isspace SPACE = true.
Proof. reflexivity. Qed.

Lemma sub_ws_runs_length b s : (length (sub_ws_runs b s) <= length s)%nat.
Proof.
  revert b. induction s as [|c r IH]; intros b; simpl; [lia|].
  destruct (isspace c); [destruct b|]; simpl;
    [specialize (IH true)|specialize (IH true)|specialize (IH false)]; lia.
Qed.

(** One pass of the substitution reaches a fixed point. *)
Lemma sub_ws_runs_idem s :
  (forall b, sub_ws_runs false (sub_ws_runs b s) = sub_ws_runs b s)
  /\ sub_ws_runs true (sub_ws_runs true s) = sub_ws_runs true s.
Proof.
  induction s as [|c r [IHf IHt]]; [by split|].
  split; [intros b|]; cbn [sub_ws_runs].
  - destruct (isspace c) eqn:Hc; [destruct b|]; cbn [sub_ws_runs].
    + apply IHf.
    + by rewrite isspace_SPACE, IHt.
    + by rewrite Hc, IHf.
  - destruct (isspace c) eqn:Hc; cbn [sub_ws_runs]; [done|].
    by rewrite Hc, IHf.
Qed.

(** A non-blank character resets the run, whatever came before. *)
Lemma sub_ws_runs_nonspace b c r :
  isspace c = false -> sub_ws_runs b (c :: r) = c :: sub_ws_runs false r.
Proof. intros Hc. cbn [sub_ws_runs]. by rewrite Hc. Qed.

(** A string that the substitution leaves alone while inside a run
    cannot begin with whitespace. *)
Lemma sub_ws_true_fixed_head s :
  sub_ws_runs true s = s ->
  match s with [] => True | c :: _ => isspace c = false end.
Proof.
  destruct s as [|c r]; [done|]. cbn [sub_ws_runs].
  destruct (isspace c); [|done]. intros H.
  pose proof (sub_ws_runs_length true r) as Hlen.
  rewrite H in Hlen. simpl in Hlen. lia.
Qed.

Lemma sub_ws_fixed_flag s :
  sub_ws_runs true s = s -> sub_ws_runs false s = s.
Proof.
  intros H. pose proof (sub_ws_true_fixed_head s H) as Hhd.
  destruct s as [|c r]; [done|].
  rewrite sub_ws_runs_nonspace in * by done. done.
Qed.

Lemma lstrip_head s :
  match lstrip s with [] => True | c :: _ => isspace c = false end.
Proof.
  induction s as [|c r IH]; [done|]. simpl.
  destruct (isspace c) eqn:Hc; [done|]. by rewrite Hc.
Qed.

Lemma lstrip_nonspace s :
  match s with [] => True | c :: _ => isspace c = false end -> lstrip s = s.
Proof. destruct s as [|c r]; [done|]. simpl. by intros ->. Qed.

Lemma lstrip_idem s : lstrip (lstrip s) = lstrip s.
Proof. apply lstrip_nonspace, lstrip_head. Qed.

Lemma lstrip_app l m :
  lstrip (l ++ m) = match lstrip l with [] => lstrip m | _ :: _ => lstrip l ++ m end.
Proof.
  induction l as [|c r IH]; [done|]. simpl.
  destruct (isspace c); [done|]. done.
Qed.

(** [rstrip], read from the front of the string. *)
Lemma rstrip_cons c r :
  rstrip (c :: r) =
  match rstrip r with
  | [] => if isspace c then [] else [c]
  | _ :: _ => c :: rstrip r
  end.
Proof.
  unfold rstrip. simpl rev at 2. rewrite lstrip_app.
  destruct (lstrip (rev r)) as [|x l'] eqn:Hl.
  - simpl. by destruct (isspace c).
  - rewrite rev_app_distr. simpl.
    destruct (rev l' ++ [x]) eqn:E; [by destruct (rev l')|done].
Qed.

Lemma rstrip_nil : rstrip [] = [].
Proof. reflexivity. Qed.

Lemma rstrip_idem s : rstrip (rstrip s) = rstrip s.
Proof. unfold rstrip. by rewrite rev_involutive, lstrip_idem. Qed.

Lemma rstrip_head s :
  match s with [] => True | c :: _ => isspace c = false end ->
  match rstrip s with [] => True | c :: _ => isspace c = false end.
Proof.
  destruct s as [|c r]; [done|]. intros Hc. rewrite rstrip_cons.
  destruct (rstrip r); by rewrite ?Hc.
Qed.

Lemma strip_idem s : strip (strip s) = strip s.
Proof.
  unfold strip.
  rewrite (lstrip_nonspace (rstrip (lstrip s)))
    by apply rstrip_head, lstrip_head.
  apply rstrip_idem.
Qed.

(** Stripping a string in which every whitespace run is already one space
    keeps it so. *)
Lemma sub_ws_fixed_lstrip s :
  sub_ws_runs false s = s -> sub_ws_runs false (lstrip s) = lstrip s.
Proof.
  destruct s as [|c r]; [done|]. intros H. simpl lstrip.
  destruct (isspace c) eqn:Hc; [|done].
  cbn [sub_ws_runs] in H. rewrite Hc in H. injection H as _ Hr.
  rewrite lstrip_nonspace by by apply sub_ws_true_fixed_head.
  by apply sub_ws_fixed_flag.
Qed.

Lemma sub_ws_fixed_rstrip s :
  forall b, sub_ws_runs b s = s -> sub_ws_runs b (rstrip s) = rstrip s.
Proof.
  induction s as [|c r IH]; intros b H; [done|].
  rewrite rstrip_cons. destruct (isspace c) eqn:Hc.
  - destruct b.
    + by pose proof (sub_ws_true_fixed_head _ H) as Hhd; simpl in Hhd; congruence.
    + cbn [sub_ws_runs] in H. rewrite Hc in H. injection H as Hsp Hr.
      specialize (IH true Hr).
      destruct (rstrip r) as [|x l] eqn:Hl; [done|].
      cbn [sub_ws_runs]. rewrite Hc. cbn [sub_ws_runs] in IH. by rewrite IH, Hsp.
  - rewrite sub_ws_runs_nonspace in H by done. injection H as Hr.
    specialize (IH false Hr).
    destruct (rstrip r) as [|x l] eqn:Hl.
    + cbn [sub_ws_runs]. by rewrite Hc.
    + rewrite sub_ws_runs_nonspace by done. by rewrite IH.
Qed.

Lemma clean_text_str s : clean_text (PStr s) = Ok (strip (re_sub_ws s)).
Proof. by destruct s. Qed.

Lemma clean_text_fixed s :
  clean_text (PStr (strip (re_sub_ws s))) = Ok (strip (re_sub_ws s)).
Proof.
  rewrite clean_text_str. f_equal.
  assert (re_sub_ws (strip (re_sub_ws s)) = strip (re_sub_ws s)) as ->.
  { unfold strip, re_sub_ws.
    apply sub_ws_fixed_rstrip, sub_ws_fixed_lstrip, sub_ws_runs_idem. }
  apply strip_idem.
Qed.

(** *** The substitution and the strip against the words of the text *)

Lemma lstrip_sub_ws b s : lstrip (sub_ws_runs b s) = sub_ws_runs true s.
Proof.
  revert b. induction s as [|c r IH]; intros b; [done|].
  cbn [sub_ws_runs]. destruct (isspace c) eqn:Hc.
  - destruct b; [apply IH|]. cbn [lstrip]. rewrite isspace_SPACE. apply IH.
  - simpl. by rewrite Hc.
Qed.

Lemma words_head_nonempty s :
  match words s with [] => True | w :: _ => w <> [] end.
Proof.
  induction s as [|c r IH]; [done|]. simpl.
  destruct (isspace c); [done|].
  destruct (begins_blank r); [done|]. by destruct (words r).
Qed.

(** The words are non-empty, free of whitespace, and together they are
    the non-whitespace characters of the text, in order. *)
Lemma words_no_whitespace s :
  Forall (fun w => w <> [] /\ forallb (fun c => negb (isspace c)) w = true)
         (words s).
Proof.
  induction s as [|c r IH]; [constructor|]. simpl.
  destruct (isspace c) eqn:Hc; [done|].
  destruct (begins_blank r).
  - constructor; [|done]. split; [done|]. simpl. by rewrite Hc.
  - destruct (words r) as [|w ws].
    + constructor; [|done]. split; [done|]. simpl. by rewrite Hc.
    + apply Forall_cons in IH as [[_ Hw] Hws].
      constructor; [|done]. split; [done|]. simpl. by rewrite Hc.
Qed.

Lemma words_concat s :
  concat (words s) = List.filter (fun c => negb (isspace c)) s.
Proof.
  induction s as [|c r IH]; [done|]. simpl.
  destruct (isspace c) eqn:Hc; simpl; [done|].
  destruct (begins_blank r); simpl; [by rewrite IH|].
  rewrite <- IH. by destruct (words r).
Qed.

Lemma words_nonblank s : begins_blank s = false -> words s <> [].
Proof.
  destruct s as [|c r]; [done|]. simpl. intros ->.
  destruct (begins_blank r); [done|]. by destruct (words r).
Qed.

Lemma join_cons_nonempty sep w ws : w <> [] -> join sep (w :: ws) <> [].
Proof. destruct w; [done|]. by destruct ws. Qed.

Lemma join_cons_cons sep c w ws :
  join sep ((c :: w) :: ws) = c :: join sep (w :: ws).
Proof. by destruct ws. Qed.

Lemma rstrip_sub_ws s :
  rstrip (sub_ws_runs true s) = collapse_and_trim s
  /\ rstrip (sub_ws_runs false s) =
     if begins_blank s
     then match words s with [] => [] | _ :: _ => SPACE :: collapse_and_trim s end
     else collapse_and_trim s.
Proof.
  unfold collapse_and_trim.
  induction s as [|c r [IHt IHf]]; [done|].
  cbn [sub_ws_runs begins_blank words]. destruct (isspace c) eqn:Hc.
  - split; [done|]. rewrite rstrip_cons, IHt, isspace_SPACE.
    pose proof (words_head_nonempty r) as Hw.
    destruct (words r) as [|w ws]; [done|].
    pose proof (join_cons_nonempty [SPACE] w ws Hw).
    by destruct (join [SPACE] (w :: ws)).
  - assert (rstrip (c :: sub_ws_runs false r) =
            join [SPACE]
              (if begins_blank r then [c] :: words r
               else match words r with w :: ws => (c :: w) :: ws | [] => [[c]] end))
      as Hgoal; [|by split].
    rewrite rstrip_cons, IHf, Hc. destruct (begins_blank r) eqn:Hb.
    + by destruct (words r).
    + pose proof (words_nonblank r Hb) as Hne.
      pose proof (words_head_nonempty r) as Hw.
      destruct (words r) as [|w ws]; [done|].
      rewrite join_cons_cons.
      pose proof (join_cons_nonempty [SPACE] w ws Hw).
      by destruct (join [SPACE] (w :: ws)).
Qed.

(** [clean_text] on a string is "collapse the whitespace runs and trim". *)
Lemma clean_text_collapse s : clean_text (PStr s) = Ok (collapse_and_trim s).
Proof.
  rewrite clean_text_str. unfold strip, re_sub_ws.
  rewrite lstrip_sub_ws. f_equal. apply rstrip_sub_ws.
Qed.

(** The example of the specification: "a   b\n c". *)
Definition a_b_nl_c : pystr := str "a   b" ++ [10%N] ++ str " c".

(** C7. [clean_text] is idempotent on every string; its result is the
    words of the text (the maximal runs of non-whitespace characters)
    joined by single spaces, so every whitespace run is collapsed to one
    space and the ends are trimmed; "a   b\n c" becomes "a b c"; and
    [None] (a null or absent value) becomes the empty string. *)
Theorem clean_text_idempotent_collapses :
  (forall s : pystr, exists t : pystr,
      clean_text (PStr s) = Ok t /\ clean_text (PStr t) = Ok t
      /\ t = collapse_and_trim s)
  /\ clean_text (PStr a_b_nl_c) = Ok (str "a b c")
  /\ clean_text PNone = Ok []
  /\ clean_text (dict_get None) = Ok [].
Proof.
  split; [|by vm_compute].
  intros s. exists (strip (re_sub_ws s)). split; [apply clean_text_str|].
  split; [apply clean_text_fixed|].
  pose proof (clean_text_collapse s) as H. rewrite clean_text_str in H.
  by injection H.
Qed.

(** ** The admin transform *)

Lemma bind_Ok {A B : Type} (m : result A) (f : A -> result B) (b : B) :
  m ≫= f = Ok b -> exists a, m = Ok a /\ f a = Ok b.
Proof. destruct m as [a|e]; [|done]. by exists a. Qed.

Ltac inv_bind H :=
  let a := fresh "v" in
  let Ha := fresh "Hv" in
  apply bind_Ok in H as (a & Ha & H); cbv zeta in H.

Lemma child_body_Ok agency_slug st child st' :
  child_body agency_slug st child = Ok st' ->
  exists r,
    rows st' = rows st ++ [r]
    /\ next_id st' = next_id st + 1
    /\ slug_to_id st' = <[slug r := agency_id r]> (slug_to_id st)
    /\ agency_id r = next_id st
    /\ row_of_entry child r
    /\ parent_id r = slug_to_id st !! agency_slug
    /\ is_Some (parent_id r).
Proof.
  unfold child_body. intros H.
  inv_bind H. inv_bind H. inv_bind H. inv_bind H. inv_bind H. inv_bind H.
  injection H as <-. eexists. cbn.
  assert (slug_to_id st !! agency_slug = Some v4) as ->.
  { unfold slug_lookup in Hv4.
    destruct (slug_to_id st !! agency_slug); congruence. }
  by repeat split.
Qed.

Lemma children_loop_Ok agency_slug children :
  forall st st',
    for_each (child_body agency_slug) st children = Ok st' ->
    exists new,
      rows st' = rows st ++ new
      /\ next_id st' = next_id st + Z.of_nat (length children)
      /\ agency_id <$> new = seqZ (next_id st) (Z.of_nat (length children))
      /\ Forall2 (fun c r => row_of_entry c r /\ is_Some (parent_id r)) children new.
Proof.
  induction children as [|c cs IH]; intros st st' H.
  - injection H as <-. exists []. rewrite app_nil_r.
    split_and!; [done|simpl; lia|done|constructor].
  - cbn [for_each] in H. inv_bind H.
    apply child_body_Ok in Hv as (r & Hrows & Hnext & _ & Hid & Hrow & _ & Hpar).
    apply IH in H as (new & Hrows' & Hnext' & Hids & Hall).
    exists (r :: new). rewrite Hrows', Hrows, <- app_assoc.
    split_and!.
    + done.
    + simpl length. lia.
    + rewrite fmap_cons, Hids, Hid, Hnext.
      rewrite (seqZ_cons (next_id st)) by (simpl length; lia).
      do 2 f_equal; simpl length; lia.
    + by constructor.
Qed.

Lemma agency_body_Ok st agency st' :
  agency_body st agency = Ok st' ->
  exists new,
    rows st' = rows st ++ new
    /\ next_id st' = next_id st + Z.of_nat (agency_count [agency])
    /\ agency_id <$> new = seqZ (next_id st) (Z.of_nat (agency_count [agency]))
    /\ Forall2 emitted_from (emission_order [agency]) new.
Proof.
  unfold agency_body. intros H.
  inv_bind H. inv_bind H. inv_bind H. inv_bind H. inv_bind H.
  apply children_loop_Ok in H as (new & Hrows & Hnext & Hids & Hall).
  cbn in Hrows, Hnext, Hids.
  eexists (_ :: new). rewrite Hrows, <- app_assoc.
  unfold agency_count, emission_order. cbn [flat_map length sum_list_with].
  rewrite app_nil_r, Nat.add_0_r.
  split_and!.
  - done.
  - lia.
  - rewrite ?fmap_cons, Hids. cbn [agency_id].
    rewrite (seqZ_cons (next_id st)) by lia. do 2 f_equal; lia.
  - constructor; [by repeat split|].
    apply Forall2_fmap_l. eapply Forall2_impl; [exact Hall|].
    intros c r [Hrow [p Hp]]. split; [done|]. simpl. rewrite Hp. by split.
Qed.

Lemma agency_count_cons a agencies :
  agency_count (a :: agencies) = (agency_count [a] + agency_count agencies)%nat.
Proof. unfold agency_count. simpl. lia. Qed.

Lemma emission_order_cons a agencies :
  emission_order (a :: agencies) = emission_order [a] ++ emission_order agencies.
Proof. unfold emission_order. simpl. by rewrite app_nil_r. Qed.

Lemma emission_order_length agencies :
  length (emission_order agencies) = agency_count agencies.
Proof.
  induction agencies as [|a l IH]; [done|].
  rewrite emission_order_cons, agency_count_cons, length_app, IH. f_equal.
  unfold emission_order, agency_count. simpl.
  rewrite app_nil_r, length_fmap. lia.
Qed.

Lemma agencies_loop_Ok agencies :
  forall st st',
    for_each agency_body st agencies = Ok st' ->
    exists new,
      rows st' = rows st ++ new
      /\ next_id st' = next_id st + Z.of_nat (agency_count agencies)
      /\ agency_id <$> new = seqZ (next_id st) (Z.of_nat (agency_count agencies))
      /\ Forall2 emitted_from (emission_order agencies) new.
Proof.
  induction agencies as [|a l IH]; intros st st' H.
  - injection H as <-. exists []. rewrite app_nil_r.
    split_and!; [done|unfold agency_count; simpl; lia|done|constructor].
  - cbn [for_each] in H. inv_bind H.
    apply agency_body_Ok in Hv as (new1 & Hrows1 & Hnext1 & Hids1 & Hall1).
    apply IH in H as (new2 & Hrows2 & Hnext2 & Hids2 & Hall2).
    exists (new1 ++ new2). rewrite Hrows2, Hrows1, <- app_assoc.
    rewrite agency_count_cons, emission_order_cons, Nat2Z.inj_add.
    split_and!.
    + done.
    + lia.
    + rewrite fmap_app, Hids1, Hids2, Hnext1. symmetry. apply seqZ_app; lia.
    + by apply Forall2_app.
Qed.

(** Whenever the admin transform returns, its rows are those of the
    payload's entries in emission order, numbered from 1. *)
Lemma transform_admin_api_Ok params api_response rs :
  transform_admin_api params api_response = Ok rs ->
  let agencies := default [] (j_agencies api_response) in
  agency_id <$> rs = seqZ 1 (Z.of_nat (agency_count agencies))
  /\ Forall2 emitted_from (emission_order agencies) rs.
Proof.
  unfold transform_admin_api. intros H. inv_bind H.
  destruct (decide _); [|done]. inv_bind H. injection H as <-.
  apply agencies_loop_Ok in Hv0 as (new & Hrows & _ & Hids & Hall).
  simpl in Hrows. subst new. by split.
Qed.

(** *** The transform returns on a well-formed payload *)

Lemma clean_text_cleanable v :
  cleanable v = true -> exists s, clean_text v = Ok s.
Proof.
  destruct v as [|z|s]; simpl; intros H.
  - by eexists.
  - unfold clean_text. simpl. rewrite H. by eexists.
  - rewrite clean_text_str. by eexists.
Qed.

Lemma child_body_total agency_slug st child :
  well_formed_agency child = true ->
  is_Some (slug_to_id st !! agency_slug) ->
  exists st', child_body agency_slug st child = Ok st'
              /\ is_Some (slug_to_id st' !! agency_slug).
Proof.
  unfold well_formed_agency, child_body. intros Hwf [pid Hpid].
  destruct (j_name child) as [n|]; [|done].
  destruct (j_slug child) as [s|]; [|done].
  repeat (apply andb_prop in Hwf as [Hwf ?]).
  destruct (clean_text_cleanable n) as [? Hn]; [done|].
  destruct (clean_text_cleanable s) as [cs Hs]; [done|].
  destruct (clean_text_cleanable (dict_get (j_short_name child))) as [? Hc1]; [done|].
  destruct (clean_text_cleanable (dict_get (j_display_name child))) as [? Hc2]; [done|].
  destruct (clean_text_cleanable (dict_get (j_sortable_name child))) as [? Hc3]; [done|].
  cbn. rewrite Hs. cbn. rewrite Hn. cbn. rewrite Hc1. cbn. rewrite Hc2. cbn.
  rewrite Hc3. cbn. unfold slug_lookup. rewrite Hpid. cbn.
  eexists. split; [done|]. cbn.
  destruct (decide (cs = agency_slug)) as [->|Hne].
  - rewrite lookup_insert_eq. by eexists.
  - rewrite lookup_insert_ne by done. by eexists.
Qed.

Lemma children_loop_total agency_slug children :
  forall st,
    forallb well_formed_agency children = true ->
    is_Some (slug_to_id st !! agency_slug) ->
    exists st', for_each (child_body agency_slug) st children = Ok st'.
Proof.
  induction children as [|c cs IH]; intros st Hwf Hsome; [by eexists|].
  simpl in Hwf. apply andb_prop in Hwf as [Hc Hcs].
  destruct (child_body_total agency_slug st c Hc Hsome) as (st1 & Hst1 & Hsome1).
  destruct (IH st1 Hcs Hsome1) as (st' & Hst').
  exists st'. cbn [for_each]. by rewrite Hst1.
Qed.

Lemma agency_body_total st agency :
  well_formed_agency (j_agency agency) = true ->
  forallb well_formed_agency (default [] (j_children agency)) = true ->
  exists st', agency_body st agency = Ok st'.
Proof.
  unfold well_formed_agency at 1, agency_body. intros Hwf Hch.
  destruct (j_name (j_agency agency)) as [n|]; [|done].
  destruct (j_slug (j_agency agency)) as [s|]; [|done].
  repeat (apply andb_prop in Hwf as [Hwf ?]).
  destruct (clean_text_cleanable n) as [? Hn]; [done|].
  destruct (clean_text_cleanable s) as [cs Hs]; [done|].
  destruct (clean_text_cleanable (dict_get (j_short_name (j_agency agency))))
    as [? Hc1]; [done|].
  destruct (clean_text_cleanable (dict_get (j_display_name (j_agency agency))))
    as [? Hc2]; [done|].
  destruct (clean_text_cleanable (dict_get (j_sortable_name (j_agency agency))))
    as [? Hc3]; [done|].
  cbn. rewrite Hs. cbn. rewrite Hn. cbn. rewrite Hc1. cbn. rewrite Hc2. cbn.
  rewrite Hc3. cbn.
  apply children_loop_total; [done|]. cbn. rewrite lookup_insert_eq. by eexists.
Qed.

Lemma agencies_loop_total agencies :
  forall st,
    forallb (fun a => well_formed_agency (j_agency a)
                      && forallb well_formed_agency (default [] (j_children a)))
            agencies = true ->
    exists st', for_each agency_body st agencies = Ok st'.
Proof.
  induction agencies as [|a l IH]; intros st Hwf; [by eexists|].
  simpl in Hwf. apply andb_prop in Hwf as [Ha Hl].
  apply andb_prop in Ha as [Ha Hch].
  destruct (agency_body_total st a Ha Hch) as (st1 & Hst1).
  destruct (IH st1 Hl) as (st' & Hst').
  exists st'. cbn [for_each]. by rewrite Hst1.
Qed.

Lemma transform_admin_api_total params api_response :
  params !! str "service" = Some (PStr (str "admin")) ->
  well_formed_payload api_response = true ->
  exists rs, transform_admin_api params api_response = Ok rs.
Proof.
  intros Hservice Hwf. unfold transform_admin_api, params_service.
  rewrite Hservice. cbn. rewrite decide_True by done.
  destruct (agencies_loop_total (default [] (j_agencies api_response))
              {| rows := []; slug_to_id := ∅; next_id := 1 |} Hwf) as (st & Hst).
  rewrite Hst. by eexists.
Qed.

(** C1. With the service tag [admin], whenever the transform returns, it
    returns exactly [N + sum c_i] rows, whose [agency_id]s in emission
    order are 1, 2, ..., [N + sum c_i], and the rows are those of the
    payload's entries taken parent first, then that parent's children in
    payload order, then the next parent; and it does return on every
    payload whose entries carry the [name] and [slug] keys with text (or
    falsy) values. *)
Theorem admin_rows_numbered_in_emission_order params api_response :
  params !! str "service" = Some (PStr (str "admin")) ->
  let agencies := default [] (j_agencies api_response) in
  (forall rs,
      transform_admin_api params api_response = Ok rs ->
      length rs = agency_count agencies
      /\ agency_id <$> rs = seqZ 1 (Z.of_nat (agency_count agencies))
      /\ Forall2 emitted_from (emission_order agencies) rs)
  /\ (well_formed_payload api_response = true ->
      exists rs, transform_admin_api params api_response = Ok rs).
Proof.
  intros Hservice agencies. split.
  - intros rs H. apply transform_admin_api_Ok in H as [Hids Hall].
    split_and!; [|done|done].
    apply Forall2_length in Hall. by rewrite <- Hall, emission_order_length.
  - by apply transform_admin_api_total.
Qed.

Lemma admin_rows_numbered_doe :
  exists rs,
    transform_admin_api admin_params doe_fixture = Ok rs
    /\ length rs = 2%nat
    /\ agency_id <$> rs = [1; 2].
Proof.
  destruct (admin_rows_numbered_in_emission_order admin_params doe_fixture)
    as [Hrows Hreturns]; [reflexivity|].
  destruct Hreturns as [rs Hrs]; [reflexivity|].
  exists rs. split; [exact Hrs|].
  destruct (Hrows rs Hrs) as (Hlen & Hids & _).
  split; [exact Hlen|exact Hids].
Defined.

(** C9. Every row the admin transform emits carries the [cfr_references]
    of the agency or child record it was emitted for, entry by entry and
    in order, each as a title/chapter/part triple whose values are the
    payload's own ([None] for an absent key): [clean_text] is not applied
    to them. *)
Theorem admin_references_passed_through params api_response rs :
  transform_admin_api params api_response = Ok rs ->
  Forall2
    (fun e r =>
       Forall2 reference_copied (default [] (j_cfr_references e.1))
               (cfr_references r))
    (emission_order (default [] (j_agencies api_response))) rs.
Proof.
  intros H. apply transform_admin_api_Ok in H as [_ Hall].
  eapply Forall2_impl; [exact Hall|].
  intros [e enclosing] r [(_ & _ & _ & _ & _ & Hrefs) _]. simpl in *.
  rewrite Hrefs. apply Forall2_fmap_r, Forall_Forall2_diag, Forall_forall.
  intros ref _. unfold reference_copied, passed_through, copy_reference. simpl.
  by destruct (j_title ref), (j_chapter ref), (j_part ref).
Qed.

Lemma admin_references_raw_fixture :
  exists rs,
    transform_admin_api admin_params raw_reference_fixture = Ok rs
    /\ cfr_references <$> rs
       = [[ {| title := PStr (str " 1  2 "); chapter := PInt 7; part := PNone |} ]]
    /\ Forall2
         (fun e r =>
            Forall2 reference_copied (default [] (j_cfr_references e.1))
                    (cfr_references r))
         (emission_order (default [] (j_agencies raw_reference_fixture))) rs.
Proof.
  eexists. split; [reflexivity|]. split; [reflexivity|].
  apply (admin_references_passed_through admin_params raw_reference_fixture).
  reflexivity.
Defined.

(** The end-to-end fixture of the specification: ids 1 and 2, the child
    pointing to its parent, and the parent's single reference. *)
Example transform_admin_api_doe :
  transform_admin_api admin_params doe_fixture
  = Ok [ {| agency_id := 1; name := str "Department Of Examples";
            short_name := str "DOE"; display_name := str "DOE";
            sortable_name := str "doe"; slug := str "doe"; parent_id := None;
            cfr_references :=
              [ {| title := PStr (str "1"); chapter := PStr (str "I");
                   part := PStr [] |} ] |};
         {| agency_id := 2; name := str "Sub Office";
            short_name := str "SO"; display_name := str "SO";
            sortable_name := str "so"; slug := str "so"; parent_id := Some 1;
            cfr_references := [] |} ].
Proof. reflexivity. Qed.

(** *** Parent links *)

(** While no child reuses the enclosing agency's slug, the table keeps
    that agency's id under the slug, and every child row receives it. *)
Lemma children_loop_parents agency_slug pid children :
  forall st st',
    slug_to_id st !! agency_slug = Some pid ->
    Forall (fun c => cleaned_slug c <> Ok agency_slug) children ->
    for_each (child_body agency_slug) st children = Ok st' ->
    exists new,
      rows st' = rows st ++ new
      /\ parent_id <$> new = replicate (length children) (Some pid).
Proof.
  induction children as [|c cs IH]; intros st st' Htable Hdiffer H.
  - injection H as <-. exists []. by rewrite app_nil_r.
  - cbn [for_each] in H. inv_bind H.
    apply Forall_cons in Hdiffer as [Hc Hcs].
    apply child_body_Ok in Hv
      as (r & Hrows & _ & Hslugs & _ & Hrow & Hpar & _).
    destruct Hrow as (_ & _ & _ & _ & Hslug & _).
    assert (slug_to_id v !! agency_slug = Some pid) as Htable'.
    { rewrite Hslugs, lookup_insert_ne; [done|].
      intros Heq. apply Hc. unfold cleaned_slug. by rewrite Hslug, Heq. }
    destruct (IH v st' Htable' Hcs H) as (new & Hrows' & Hpars).
    exists (r :: new). rewrite Hrows', Hrows, <- app_assoc. split; [done|].
    rewrite fmap_cons, Hpars, Hpar, Htable. done.
Qed.

Lemma agency_body_parents st agency st' :
  child_slugs_differ agency ->
  agency_body st agency = Ok st' ->
  exists new,
    rows st' = rows st ++ new
    /\ parent_id <$> new
       = None :: replicate (length (default [] (j_children agency)))
                           (Some (next_id st)).
Proof.
  unfold child_slugs_differ, agency_body. intros Hdiffer H.
  inv_bind H. inv_bind H. inv_bind H. inv_bind H. inv_bind H.
  fold (cleaned_slug (j_agency agency)) in Hv. rewrite Hv in Hdiffer.
  eapply children_loop_parents in H as (new & Hrows & Hpars);
    [| cbn; apply lookup_insert_eq | done].
  cbn in Hrows. eexists (_ :: new). rewrite Hrows, <- app_assoc.
  split; [done|]. by rewrite fmap_cons, Hpars.
Qed.

Lemma agencies_loop_parents agencies :
  forall st st',
    Forall child_slugs_differ agencies ->
    for_each agency_body st agencies = Ok st' ->
    exists new,
      rows st' = rows st ++ new
      /\ parent_id <$> new = declared_parent_ids (next_id st) agencies.
Proof.
  induction agencies as [|a l IH]; intros st st' Hdiffer H.
  - injection H as <-. exists []. by rewrite app_nil_r.
  - cbn [for_each] in H. inv_bind H.
    apply Forall_cons in Hdiffer as [Ha Hl].
    destruct (agency_body_Ok _ _ _ Hv) as (new0 & Hrows0 & Hnext & _ & _).
    destruct (agency_body_parents _ _ _ Ha Hv) as (new1 & Hrows1 & Hpars1).
    destruct (IH _ _ Hl H) as (new2 & Hrows2 & Hpars2).
    exists (new1 ++ new2). rewrite Hrows2, Hrows1, <- app_assoc.
    split; [done|]. rewrite fmap_app, Hpars1, Hpars2, Hnext.
    cbn [declared_parent_ids]. rewrite <- app_comm_cons. do 3 f_equal.
    unfold agency_count. simpl. lia.
Qed.

(** On a payload in which no child reuses the slug of its enclosing
    agency, the parent links are the declared ones. *)
Lemma admin_parent_links params api_response rs :
  Forall child_slugs_differ (default [] (j_agencies api_response)) ->
  transform_admin_api params api_response = Ok rs ->
  parent_id <$> rs = declared_parent_ids 1 (default [] (j_agencies api_response)).
Proof.
  unfold transform_admin_api. intros Hdiffer H. inv_bind H.
  destruct (decide _); [|done]. inv_bind H. injection H as <-.
  eapply agencies_loop_parents in Hv0 as (new & Hrows & Hpars); [|done].
  simpl in Hrows. by subst new.
Qed.

(** C2, at a payload whose first child repeats its agency's slug.  The
    first child overwrites the agency's entry of the slug table, so the
    second child is linked to the first child (id 2) and not to the
    enclosing top-level agency (id 1), which is what the slug lookup was
    meant to recover. *)
Theorem admin_parent_id_repeated_slug :
  exists rs,
    transform_admin_api admin_params repeated_slug_fixture = Ok rs
    /\ agency_id <$> rs = [1; 2; 3]
    /\ parent_id <$> rs = [None; Some 1; Some 2]
    /\ declared_parent_ids 1 (default [] (j_agencies repeated_slug_fixture))
       = [None; Some 1; Some 1].
Proof. eexists. split; [reflexivity|]. by split_and!. Qed.

(** ** The versioner transform *)

Lemma strip_nil : strip [] = [].
Proof. reflexivity. Qed.

(** The expression the loops evaluate for a heading is the trimmed text of
    the first [HEAD] child, or the empty string. *)
Lemma head_text_first_heading e : head_text e = first_heading_trimmed e.
Proof.
  unfold head_text, first_heading_trimmed, findtext, find.
  destruct (List.find _ _) as [h|]; [|reflexivity].
  by destruct (el_text h) as [[|c s]|].
Qed.

Lemma of_optional_attribute e :
  attribute_or_null e (of_optional (get_attribute (str "N") e)).
Proof.
  unfold attribute_or_null, get_attribute.
  by destruct (el_attrib e !! str "N").
Qed.

Lemma body_text_no_paragraph div8 :
  findall (str "P") div8 = [] -> body_text div8 = [].
Proof. unfold body_text. by intros ->. Qed.

Section VersionerProperties.
Variable fromstring : pystr -> option element.

(** Every emitted row comes from one chain of nested elements. *)
Lemma versioner_row_origin params api_response root rs r :
  fromstring api_response = Some root ->
  transform_versioner_api fromstring params api_response = Ok rs ->
  r ∈ rs ->
  exists div1 div3 div4 div5 div8,
    nested_in root div1 div3 div4 div5 div8
    /\ r = {| title_number := of_optional (get_attribute (str "N") div1);
              title_head := PStr (head_text div1);
              chapter_number := of_optional (get_attribute (str "N") div3);
              chapter_head := PStr (head_text div3);
              subchapter_number := of_optional (get_attribute (str "N") div4);
              subchapter_head := PStr (head_text div4);
              part_number := of_optional (get_attribute (str "N") div5);
              part_head := PStr (head_text div5);
              section_number := of_optional (get_attribute (str "N") div8);
              section_title := PStr (head_text div8);
              body := PStr (body_text div8) |}.
Proof.
  unfold transform_versioner_api. intros Hparse H Hr. inv_bind H.
  destruct (decide _); [|done]. rewrite Hparse in H. injection H as <-.
  apply list_elem_of_bind in Hr as (div1 & Hr & H1).
  apply list_elem_of_bind in Hr as (div3 & Hr & H3).
  apply list_elem_of_bind in Hr as (div4 & Hr & H4).
  apply list_elem_of_bind in Hr as (div5 & Hr & H5).
  apply list_elem_of_bind in Hr as (div8 & Hr & H8).
  apply list_elem_of_singleton in Hr.
  by exists div1, div3, div4, div5, div8.
Qed.

(** C8. In every row emitted for a well-formed payload, [body] is a
    string, never null, and the empty string when the section has no
    paragraph element; and each of the five heads is a string, the
    trimmed text of the first [HEAD] child of its element, and the
    empty string, not null, when there is no such child. *)
Theorem versioner_body_and_heads_never_null params api_response root rs r :
  fromstring api_response = Some root ->
  transform_versioner_api fromstring params api_response = Ok rs ->
  r ∈ rs ->
  exists div1 div3 div4 div5 div8,
    nested_in root div1 div3 div4 div5 div8
    /\ (exists b, body r = PStr b
                  /\ b = body_text div8
                  /\ (findall (str "P") div8 = [] -> b = []))
    /\ title_head r = PStr (first_heading_trimmed div1)
    /\ chapter_head r = PStr (first_heading_trimmed div3)
    /\ subchapter_head r = PStr (first_heading_trimmed div4)
    /\ part_head r = PStr (first_heading_trimmed div5)
    /\ section_title r = PStr (first_heading_trimmed div8)
    /\ (forall d, find (str "HEAD") d = None -> first_heading_trimmed d = []).
Proof.
  intros Hparse H Hr.
  destruct (versioner_row_origin _ _ _ _ _ Hparse H Hr)
    as (div1 & div3 & div4 & div5 & div8 & Hnested & ->).
  exists div1, div3, div4, div5, div8. cbn.
  rewrite !head_text_first_heading. split_and!; try done.
  - exists (body_text div8). split_and!; [done|done|].
    apply body_text_no_paragraph.
  - intros d Hd. unfold first_heading_trimmed. unfold find in Hd. by rewrite Hd.
Qed.

(** C10. In every row emitted for a well-formed payload, each of the
    five number fields is the [N] attribute of its element where the
    element has one, and null where it has none: the empty-string
    default of the heads does not apply to the numbers. *)
Theorem versioner_numbers_attribute_or_null params api_response root rs r :
  fromstring api_response = Some root ->
  transform_versioner_api fromstring params api_response = Ok rs ->
  r ∈ rs ->
  exists div1 div3 div4 div5 div8,
    nested_in root div1 div3 div4 div5 div8
    /\ attribute_or_null div1 (title_number r)
    /\ attribute_or_null div3 (chapter_number r)
    /\ attribute_or_null div4 (subchapter_number r)
    /\ attribute_or_null div5 (part_number r)
    /\ attribute_or_null div8 (section_number r).
Proof.
  intros Hparse H Hr.
  destruct (versioner_row_origin _ _ _ _ _ Hparse H Hr)
    as (div1 & div3 & div4 & div5 & div8 & Hnested & ->).
  exists div1, div3, div4, div5, div8. cbn.
  split_and!; try done; apply of_optional_attribute.
Qed.
End VersionerProperties.

(** The fixture of the specification: one title, chapter, subchapter and
    part with two sections give exactly two rows, which share the
    ancestors' fields. *)
Example transform_versioner_api_fixture :
  transform_versioner_api title_fixture_parser versioner_params
                          (str "<ECFR>...</ECFR>")
  = Ok [ {| title_number := PStr (str "1"); title_head := PStr (str "Title 1");
            chapter_number := PStr (str "I"); chapter_head := PStr (str "Chapter I");
            subchapter_number := PNone; subchapter_head := PStr [];
            part_number := PStr (str "1"); part_head := PStr (str "Part 1");
            section_number := PStr (str "1.1");
            section_title := PStr (str "Definitions.");
            body := PStr (str "First  term  defined. Second.") |};
         {| title_number := PStr (str "1"); title_head := PStr (str "Title 1");
            chapter_number := PStr (str "I"); chapter_head := PStr (str "Chapter I");
            subchapter_number := PNone; subchapter_head := PStr [];
            part_number := PStr (str "1"); part_head := PStr (str "Part 1");
            section_number := PNone;
            section_title := PStr [];
            body := PStr [] |} ].
Proof. vm_compute. reflexivity. Qed.

Lemma versioner_fixture_second_section_heads :
  exists rs r,
    transform_versioner_api title_fixture_parser versioner_params
                            (str "<ECFR>...</ECFR>") = Ok rs
    /\ rs !! 1%nat = Some r
    /\ body r = PStr [] /\ section_title r = PStr []
    /\ exists div1 div3 div4 div5 div8,
        nested_in title_fixture div1 div3 div4 div5 div8
        /\ (exists b, body r = PStr b
                      /\ b = body_text div8
                      /\ (findall (str "P") div8 = [] -> b = []))
        /\ title_head r = PStr (first_heading_trimmed div1)
        /\ chapter_head r = PStr (first_heading_trimmed div3)
        /\ subchapter_head r = PStr (first_heading_trimmed div4)
        /\ part_head r = PStr (first_heading_trimmed div5)
        /\ section_title r = PStr (first_heading_trimmed div8)
        /\ (forall d, find (str "HEAD") d = None -> first_heading_trimmed d = []).
Proof.
  eexists _, _. split; [apply transform_versioner_api_fixture|].
  split; [reflexivity|]. split; [reflexivity|]. split; [reflexivity|].
  eapply (versioner_body_and_heads_never_null title_fixture_parser
            versioner_params (str "<ECFR>...</ECFR>") title_fixture).
  - reflexivity.
  - apply transform_versioner_api_fixture.
  - apply list_elem_of_further, list_elem_of_here.
Defined.

Lemma versioner_fixture_second_section_numbers :
  exists rs r,
    transform_versioner_api title_fixture_parser versioner_params
                            (str "<ECFR>...</ECFR>") = Ok rs
    /\ rs !! 1%nat = Some r
    /\ subchapter_number r = PNone /\ section_number r = PNone
    /\ part_number r = PStr (str "1")
    /\ exists div1 div3 div4 div5 div8,
        nested_in title_fixture div1 div3 div4 div5 div8
        /\ attribute_or_null div1 (title_number r)
        /\ attribute_or_null div3 (chapter_number r)
        /\ attribute_or_null div4 (subchapter_number r)
        /\ attribute_or_null div5 (part_number r)
        /\ attribute_or_null div8 (section_number r).
Proof.
  eexists _, _. split; [apply transform_versioner_api_fixture|].
  split; [reflexivity|]. split; [reflexivity|]. split; [reflexivity|].
  split; [reflexivity|].
  eapply (versioner_numbers_attribute_or_null title_fixture_parser
            versioner_params (str "<ECFR>...</ECFR>") title_fixture).
  - reflexivity.
  - apply transform_versioner_api_fixture.
  - apply list_elem_of_further, list_elem_of_here.
Defined.

(** ** Configuration *)

(** Every service name other than the two supported ones gets a parameter
    bundle that holds the name alone. *)
Lemma paramBuilder_other_service service user_params :
  service <> str "admin" -> service <> str "versioner" ->
  paramBuilder service user_params = Ok {[ str "service" := PStr service ]}.
Proof.
  intros Ha Hv. unfold paramBuilder.
  by rewrite (decide_False (P := service = str "admin")),
             (decide_False (P := service = str "versioner")).
Qed.

(** C4.  For every service name other than [admin] and [versioner] the
    constructor does not fail: it returns a configuration whose parameter
    bundle holds the service name alone, because the [ValueError] of the
    last branch is built and never raised. *)
Theorem Config_unsupported_service_not_rejected service user_params :
  service <> str "admin" -> service <> str "versioner" ->
  Config_init service user_params
  = Ok {| config_service := service;
          config_user_params := default ∅ user_params;
          config_params := {[ str "service" := PStr service ]} |}.
Proof.
  intros Ha Hv. unfold Config_init.
  by rewrite paramBuilder_other_service.
Qed.

Lemma Config_search_not_rejected :
  Config_init (str "search") None
  = Ok {| config_service := str "search";
          config_user_params := ∅;
          config_params := {[ str "service" := PStr (str "search") ]} |}.
Proof.
  apply (Config_unsupported_service_not_rejected (str "search") None);
    discriminate.
Defined.

(** The two supported services. *)
Example Config_admin :
  Config_init (str "admin") None
  = Ok {| config_service := str "admin";
          config_user_params := ∅;
          config_params := admin_params |}.
Proof. vm_compute. reflexivity. Qed.

Example Config_versioner :
  Config_init (str "versioner")
              (Some {[ str "date" := PStr (str "2025-01-01");
                       str "title" := PStr (str "1") ]})
  = Ok {| config_service := str "versioner";
          config_user_params := {[ str "date" := PStr (str "2025-01-01");
                                   str "title" := PStr (str "1") ]};
          config_params := versioner_params |}.
Proof. vm_compute. reflexivity. Qed.

Example Config_versioner_without_date :
  Config_init (str "versioner") None = Raise (KeyError (str "date")).
Proof. reflexivity. Qed.

(** ** Extraction *)

Section ExtractorProperties.
Variable requests_get : pystr -> get_outcome.
Variable response_json : pystr -> option json_payload.

(** C5.  In every admin extraction whose single GET raises or is answered
with a status from 400 to 599, the [except] clause only prints, and the
[return] that follows reads [retrieved_data], which was never bound: the
call ends in an [UnboundLocalError], the reference to an undefined value,
and not in an extraction error of its own. *)
Theorem extract_data_admin_failure_is_unbound_local self :
  extractor_params self !! str "service" = Some (PStr (str "admin")) ->
  admin_fetch_failed requests_get self ->
  extract_data requests_get response_json self
  = Raise (UnboundLocalError (str "retrieved_data")).
Proof.
  intros Hservice Hfailed. unfold extract_data.
  destruct (decide (extractor_params self = ∅)) as [Hempty|_].
  { by rewrite Hempty, lookup_empty in Hservice. }
  rewrite Hservice, decide_True by done.
  assert (try_fetch_admin requests_get response_json self = None) as ->; [|done].
  unfold try_fetch_admin.
  destruct Hfailed as [->|(status_code & text & -> & Hstatus)]; [done|].
  unfold raises_for_status.
  by rewrite (proj2 (Z.leb_le _ _)), (proj2 (Z.ltb_lt _ _)) by lia.
Qed.
End ExtractorProperties.

Lemma extract_data_admin_status_503 :
  extract_data (fun _ => Response 503 (str "Service Unavailable"))
               (fun _ => None)
               (DataExtractor_init admin_params)
  = Raise (UnboundLocalError (str "retrieved_data")).
Proof.
  apply extract_data_admin_failure_is_unbound_local.
  - reflexivity.
  - right. exists 503, (str "Service Unavailable"). split; [reflexivity|lia].
Defined.

(** A GET that succeeds gives the decoded payload. *)
Example extract_data_admin_status_200 :
  extract_data (fun _ => Response 200 (str "{...}"))
               (fun _ => Some doe_fixture)
               (DataExtractor_init admin_params)
  = Ok (RawJson doe_fixture).
Proof. reflexivity. Qed.

(** ** Loading *)

(** The loader's connection never has foreign keys on. *)
Lemma DatabaseLoader_init_foreign_keys stored :
  foreign_keys (DatabaseLoader_init stored) = false.
Proof. reflexivity. Qed.

Lemma insert_agency_foreign_keys conn agency conn' :
  insert_agency conn agency = Ok conn' -> foreign_keys conn' = foreign_keys conn.
Proof.
  unfold insert_agency. destruct (_ && _); [done|]. by intros [= <-].
Qed.

Lemma insert_cfr_reference_foreign_keys conn agency_id_ reference conn' :
  insert_cfr_reference conn agency_id_ reference = Ok conn' ->
  foreign_keys conn' = foreign_keys conn.
Proof.
  unfold insert_cfr_reference. destruct (_ && _); [done|]. by intros [= <-].
Qed.

(** On the loader's connection a reference is inserted whatever its
    [agency_id] is. *)
Lemma insert_cfr_reference_unchecked conn agency_id_ reference :
  foreign_keys conn = false ->
  exists conn',
    insert_cfr_reference conn agency_id_ reference = Ok conn'
    /\ agencies_table (db conn') = agencies_table (db conn)
    /\ exists row,
        cfr_references_table (db conn') = cfr_references_table (db conn) ++ [row]
        /\ col_agency_id row = agency_id_.
Proof.
  intros Hoff. unfold insert_cfr_reference. rewrite Hoff. cbn.
  eexists. split; [done|]. cbn. split; [done|]. by eexists.
Qed.

(** Had the connection turned foreign keys on, the same insertion would
    have been refused. *)
Lemma insert_cfr_reference_checked conn agency_id_ reference :
  foreign_keys conn = true ->
  agencies_table (db conn) !! agency_id_ = None ->
  insert_cfr_reference conn agency_id_ reference = Raise FOREIGN_KEY_FAILED.
Proof.
  intros Hon Habsent. unfold insert_cfr_reference, dangling_reference.
  rewrite Hon. cbn. by rewrite bool_decide_true.
Qed.

(** After the agency was inserted, a reference to it is accepted on every
    connection and adds one row. *)
Lemma insert_cfr_reference_after_agency conn agency conn1 reference :
  insert_agency conn agency = Ok conn1 ->
  exists conn2,
    insert_cfr_reference conn1 (agency_id agency) reference = Ok conn2
    /\ length (cfr_references_table (db conn2))
       = S (length (cfr_references_table (db conn1))).
Proof.
  unfold insert_agency. destruct (_ && _); [done|]. intros [= <-].
  unfold insert_cfr_reference, dangling_reference. cbn.
  rewrite lookup_insert_eq, bool_decide_false by done.
  rewrite andb_false_r. eexists. split; [done|]. cbn.
  rewrite length_app. simpl. lia.
Qed.

(** C3.  On the loader's connection, inserting a reference whose
    [agency_id] is not in the agencies table raises nothing and stores the
    row: the schema declares the foreign key, but the connection never
    turns its enforcement on. *)
Theorem insert_cfr_reference_without_agency_accepted stored agency_id_ reference :
  agencies_table stored !! agency_id_ = None ->
  exists conn',
    insert_cfr_reference (DatabaseLoader_init stored) agency_id_ reference = Ok conn'
    /\ agencies_table (db conn') !! agency_id_ = None
    /\ exists row,
        cfr_references_table (db conn') = cfr_references_table stored ++ [row]
        /\ col_agency_id row = agency_id_.
Proof.
  intros Habsent.
  destruct (insert_cfr_reference_unchecked (DatabaseLoader_init stored)
              agency_id_ reference eq_refl) as (conn' & Hins & Hag & Hrow).
  exists conn'. split; [done|]. split; [|done]. by rewrite Hag.
Qed.

Lemma insert_cfr_reference_42_new_database :
  exists conn',
    insert_cfr_reference (DatabaseLoader_init empty_database) 42 reference_1_I
    = Ok conn'
    /\ agencies_table (db conn') !! 42 = None
    /\ exists row,
        cfr_references_table (db conn') = [] ++ [row]
        /\ col_agency_id row = 42.
Proof.
  apply (insert_cfr_reference_without_agency_accepted empty_database 42
           reference_1_I).
  reflexivity.
Defined.

(** *** Upsert of an agency *)

Lemma without_conflicts_lookup agency table k :
  without_conflicts agency table !! k
  = if decide (k = agency_id agency) then None
    else match table !! k with
         | Some r => if decide (col_slug r = slug agency) then None else Some r
         | None => None
         end.
Proof.
  unfold without_conflicts. rewrite map_lookup_filter.
  destruct (table !! k) as [r|] eqn:Hk; simpl.
  - destruct (decide (k = agency_id agency)) as [->|Hne].
    + rewrite option_guard_False; [done|]. by intros [? _].
    + destruct (decide (col_slug r = slug agency)) as [Heq|Hdiff].
      * rewrite option_guard_False; [done|]. by intros [_ ?].
      * by rewrite option_guard_True.
  - by destruct (decide _).
Qed.

(** Without another row under the new slug, only the row of the same key
    is replaced. *)
Lemma without_conflicts_delete agency table :
  (forall k r, table !! k = Some r -> col_slug r = slug agency ->
               k = agency_id agency) ->
  without_conflicts agency table = delete (agency_id agency) table.
Proof.
  intros Hunique. apply map_eq. intros k.
  rewrite without_conflicts_lookup, lookup_delete.
  destruct (decide (agency_id agency = k)) as [<-|Hne].
  - by rewrite decide_True.
  - rewrite decide_False by done.
    destruct (table !! k) as [r|] eqn:Hk; [|done].
    destruct (decide _) as [Hslug|]; [|done].
    by specialize (Hunique k r Hk Hslug).
Qed.

Lemma dangling_reference_same_keys (table table' : gmap Z agency_columns)
    (references : list reference_columns) :
  (forall k, is_Some (table !! k) -> is_Some (table' !! k)) ->
  dangling_reference table'
    (List.filter (fun r => bool_decide (is_Some (table !! col_agency_id r)))
                 references) = false.
Proof.
  intros Hkeys. unfold dangling_reference.
  induction references as [|r l IH]; [done|]. simpl.
  destruct (bool_decide_reflect (is_Some (table !! col_agency_id r))) as [Hin|Hout];
    [|done].
  simpl. rewrite IH, orb_false_r. apply bool_decide_false.
  apply Hkeys in Hin as [x Hx]. by rewrite Hx.
Qed.

(** C6, as the code has it.  When a row is stored under the key of the
    new row and no row under another key holds the new row's slug,
    [insert_agency] replaces the stored row in place: the table keeps its
    number of rows, the key now holds the new row's values, and the rows
    under the other keys are untouched. *)
Theorem insert_agency_replaces_in_place conn agency old :
  agencies_table (db conn) !! agency_id agency = Some old ->
  (forall k r, agencies_table (db conn) !! k = Some r ->
               col_slug r = slug agency -> k = agency_id agency) ->
  exists conn',
    insert_agency conn agency = Ok conn'
    /\ size (agencies_table (db conn')) = size (agencies_table (db conn))
    /\ agencies_table (db conn') !! agency_id agency = Some (columns_of agency)
    /\ forall k, k <> agency_id agency ->
                 agencies_table (db conn') !! k = agencies_table (db conn) !! k.
Proof.
  intros Hold Hunique. unfold insert_agency.
  rewrite without_conflicts_delete, insert_delete_eq by done.
  rewrite dangling_reference_same_keys, andb_false_r.
  - eexists. split; [done|]. cbn. split_and!.
    + by eapply map_size_insert_Some.
    + apply lookup_insert_eq.
    + intros k Hk. by rewrite lookup_insert_ne.
  - intros k Hk. destruct (decide (agency_id agency = k)) as [<-|Hne].
    + rewrite lookup_insert_eq. by eexists.
    + by rewrite lookup_insert_ne.
Qed.

Lemma insert_agency_renamed_in_place :
  exists conn',
    insert_agency (DatabaseLoader_init two_agencies) agency_1_renamed = Ok conn'
    /\ size (agencies_table (db conn')) = 2%nat
    /\ agencies_table (db conn') !! 1 = Some (columns_of agency_1_renamed).
Proof.
  destruct (insert_agency_replaces_in_place
              (DatabaseLoader_init two_agencies) agency_1_renamed
              {| col_name := str "Agency A"; col_short_name := [];
                 col_display_name := []; col_sortable_name := [];
                 col_slug := str "a"; col_parent_id := None |})
    as (conn' & Hins & Hsize & Hrow & _).
  - reflexivity.
  - intros k r Hk Hslug. cbn in Hk.
    destruct (decide (k = 1)) as [->|H1]; [done|].
    rewrite lookup_insert_ne in Hk by done.
    destruct (decide (k = 2)) as [->|H2].
    + rewrite lookup_singleton_eq in Hk. injection Hk as <-. done.
    + by rewrite lookup_singleton_ne in Hk.
  - exists conn'. split; [exact Hins|]. split; [exact Hsize|exact Hrow].
Defined.

(** C6 as stated fails where the second row takes the slug of a row stored
    under another key.  Agencies 1 (slug a) and 2 (slug b) are inserted
    into a new database; a second row for key 1, which differs from the
    stored one by its slug b, is inserted; the replacement removes the row
    of key 2 as well, so two rows become one. *)
Lemma insert_agency_slug_taken_drops_row :
  let conn := DatabaseLoader_init two_agencies in
  (conn1 ← insert_agency (DatabaseLoader_init empty_database) agency_1;
   insert_agency conn1 agency_2) = Ok conn
  /\ exists old conn',
      agencies_table (db conn) !! agency_id agency_1_with_slug_b = Some old
      /\ columns_of agency_1_with_slug_b <> old
      /\ insert_agency conn agency_1_with_slug_b = Ok conn'
      /\ size (agencies_table (db conn)) = 2%nat
      /\ size (agencies_table (db conn')) = 1%nat
      /\ agencies_table (db conn') !! 2 = None.
Proof.
  split; [by vm_compute|].
  eexists _, _. split; [reflexivity|]. split; [done|].
  split; [reflexivity|]. by vm_compute.
Qed.

(** The end-to-end scenario of the specification: the transformed fixture,
    loaded into a new database, gives the two agency rows and the one
    reference row of agency 1. *)
Example load_admin_data_doe :
  (transformed ← transform_admin_api admin_params doe_fixture;
   load_admin_data (DatabaseLoader_init empty_database) transformed)
  = Ok {| foreign_keys := false;
          db := {| agencies_table :=
                     {[ 1 := {| col_name := str "Department Of Examples";
                                col_short_name := str "DOE";
                                col_display_name := str "DOE";
                                col_sortable_name := str "doe";
                                col_slug := str "doe";
                                col_parent_id := None |};
                        2 := {| col_name := str "Sub Office";
                                col_short_name := str "SO";
                                col_display_name := str "SO";
                                col_sortable_name := str "so";
                                col_slug := str "so";
                                col_parent_id := Some 1 |} ]};
                   cfr_sections_table := [];
                   cfr_sections_seq := 0;
                   cfr_references_table :=
                     [ {| col_reference_id := 1; col_agency_id := 1;
                          col_title := PStr (str "1");
                          col_chapter := PStr (str "I");
                          col_part := PStr [] |} ];
                   cfr_references_seq := 1 |} |}.
Proof. vm_compute. reflexivity. Qed.

(* ===================================================================== *)
(** * Further properties of the code                                      *)
(* ===================================================================== *)

(** ** [clean_text] on any value *)

Lemma clean_text_result_clean v t : clean_text v = Ok t -> is_clean t.
Proof.
  unfold is_clean. destruct v as [|z|s].
  - by intros [= <-].
  - unfold clean_text. simpl. destruct (z =? 0); [|done]. by intros [= <-].
  - rewrite clean_text_str. intros [= <-]. apply clean_text_fixed.
Qed.


Lemma clean_text_Raise v e : clean_text v = Raise e -> e = TypeError.
Proof.
  destruct v as [|z|s].
  - done.
  - unfold clean_text. simpl. destruct (z =? 0); [done|]. by intros [= <-].
  - by rewrite clean_text_str.
Qed.

Lemma bind_Raise {A B : Type} (m : result A) (f : A -> result B) (e : exn) :
  m ≫= f = Raise e -> m = Raise e \/ exists a, m = Ok a /\ f a = Raise e.
Proof.
  destruct m as [a|e']; [right; by exists a|].
  intros [= <-]. by left.
Qed.

Lemma getitem_clean_text_Raise key field e :
  getitem key field ≫= clean_text = Raise e ->
  e = KeyError (str key) \/ e = TypeError.
Proof.
  destruct field as [v|]; simpl.
  - intros H. right. by apply clean_text_Raise in H.
  - intros [= <-]. by left.
Qed.

Lemma getitem_clean_text_Ok key field t :
  getitem key field ≫= clean_text = Ok t ->
  exists v, field = Some v /\ clean_text v = Ok t.
Proof. destruct field as [v|]; [|done]. by exists v. Qed.

(** The non-whitespace characters of a text survive [clean_text], in
    order. *)
Lemma filter_nonspace_join ws :
  Forall (fun w => forallb (fun c => negb (isspace c)) w = true) ws ->
  List.filter (fun c => negb (isspace c)) (join [SPACE] ws) = concat ws.
Proof.
  induction ws as [|w ws IH]; [done|]. intros Hall.
  apply Forall_cons in Hall as [Hw Hws]. specialize (IH Hws).
  assert (List.filter (fun c => negb (isspace c)) w = w) as Hfw.
  { clear -Hw. induction w as [|c w IHw]; [done|]. simpl in *.
    apply andb_prop in Hw as [Hc Hw]. by rewrite Hc, IHw. }
  destruct ws as [|w' ws'].
  - simpl. by rewrite app_nil_r.
  - change (join [SPACE] (w :: w' :: ws'))
      with (w ++ [SPACE] ++ join [SPACE] (w' :: ws')).
    rewrite !List.filter_app, IH, Hfw. cbn [List.filter].
    rewrite isspace_SPACE. done.
Qed.

Lemma lstrip_length s : (length (lstrip s) <= length s)%nat.
Proof.
  induction s as [|c r IH]; [done|]. simpl.
  destruct (isspace c); simpl; lia.
Qed.

Lemma strip_length s : (length (strip s) <= length s)%nat.
Proof.
  unfold strip, rstrip. rewrite length_rev.
  pose proof (lstrip_length (rev (lstrip s))) as H1.
  pose proof (lstrip_length s) as H2.
  rewrite length_rev in H1. lia.
Qed.

(** X1. [clean_text] never adds, drops or reorders a character that is
    not whitespace, and never makes a text longer. *)
Theorem clean_text_keeps_nonspace s t :
  clean_text (PStr s) = Ok t ->
  List.filter (fun c => negb (isspace c)) t
  = List.filter (fun c => negb (isspace c)) s
  /\ (length t <= length s)%nat.
Proof.
  intros H. split.
  - rewrite clean_text_collapse in H. injection H as <-.
    unfold collapse_and_trim. rewrite filter_nonspace_join, words_concat; [done|].
    eapply Forall_impl; [apply words_no_whitespace|]. by intros w [_ Hw].
  - rewrite clean_text_str in H. injection H as <-.
    pose proof (strip_length (re_sub_ws s)).
    pose proof (sub_ws_runs_length false s). unfold re_sub_ws in *. lia.
Qed.

Lemma clean_text_keeps_nonspace_example :
  List.filter (fun c => negb (isspace c)) (str "a b c")
  = List.filter (fun c => negb (isspace c)) a_b_nl_c
  /\ (length (str "a b c") <= length a_b_nl_c)%nat.
Proof. apply clean_text_keeps_nonspace. reflexivity. Defined.

(** ** The admin transform: when it returns, and what its rows satisfy *)




(** Which exception ends a loop. *)
Lemma child_body_Raise agency_slug st child e :
  is_Some (slug_to_id st !! agency_slug) ->
  child_body agency_slug st child = Raise e ->
  malformed_entry_error e.
Proof.
  unfold child_body, malformed_entry_error. intros [pid Hpid] H.
  apply bind_Raise in H as [H|(? & _ & H)];
    [apply getitem_clean_text_Raise in H; tauto|]. cbv zeta in H.
  apply bind_Raise in H as [H|(? & _ & H)];
    [apply getitem_clean_text_Raise in H; tauto|].
  apply bind_Raise in H as [H|(? & _ & H)];
    [apply clean_text_Raise in H; tauto|].
  apply bind_Raise in H as [H|(? & _ & H)];
    [apply clean_text_Raise in H; tauto|].
  apply bind_Raise in H as [H|(? & _ & H)];
    [apply clean_text_Raise in H; tauto|].
  apply bind_Raise in H as [H|(? & _ & H)]; [|done].
  unfold slug_lookup in H. by rewrite Hpid in H.
Qed.

Lemma children_loop_Raise agency_slug children :
  forall st e,
    is_Some (slug_to_id st !! agency_slug) ->
    for_each (child_body agency_slug) st children = Raise e ->
    malformed_entry_error e.
Proof.
  induction children as [|c cs IH]; intros st e Hsome H; [done|].
  cbn [for_each] in H. apply bind_Raise in H as [H|(st1 & Hst1 & H)].
  - by eapply child_body_Raise.
  - eapply IH; [|exact H].
    apply child_body_Ok in Hst1 as (r & _ & _ & -> & _).
    destruct (decide (slug r = agency_slug)) as [->|Hne].
    + rewrite lookup_insert_eq. by eexists.
    + by rewrite lookup_insert_ne.
Qed.

Lemma agency_body_Raise st agency e :
  agency_body st agency = Raise e -> malformed_entry_error e.
Proof.
  unfold agency_body, malformed_entry_error. intros H.
  apply bind_Raise in H as [H|(? & _ & H)];
    [apply getitem_clean_text_Raise in H; tauto|]. cbv zeta in H.
  apply bind_Raise in H as [H|(? & _ & H)];
    [apply getitem_clean_text_Raise in H; tauto|].
  apply bind_Raise in H as [H|(? & _ & H)];
    [apply clean_text_Raise in H; tauto|].
  apply bind_Raise in H as [H|(? & _ & H)];
    [apply clean_text_Raise in H; tauto|].
  apply bind_Raise in H as [H|(? & _ & H)];
    [apply clean_text_Raise in H; tauto|].
  eapply children_loop_Raise; [|exact H].
  cbn. rewrite lookup_insert_eq. by eexists.
Qed.

Lemma agencies_loop_Raise agencies :
  forall st e,
    for_each agency_body st agencies = Raise e -> malformed_entry_error e.
Proof.
  induction agencies as [|a l IH]; intros st e H; [done|].
  cbn [for_each] in H. apply bind_Raise in H as [H|(st1 & _ & H)].
  - by eapply agency_body_Raise.
  - by eapply IH.
Qed.



(** X3. Every text field of every row the admin transform returns is in
    the normal form of [clean_text]: cleaning it again changes nothing. *)
Theorem admin_rows_are_clean params api_response rs :
  transform_admin_api params api_response = Ok rs ->
  Forall (fun r => is_clean (name r) /\ is_clean (short_name r)
                   /\ is_clean (display_name r) /\ is_clean (sortable_name r)
                   /\ is_clean (slug r)) rs.
Proof.
  intros H. apply transform_admin_api_Ok in H as [_ Hall].
  eapply Forall2_Forall_r; [exact Hall|]. apply Forall_forall.
  intros e _ r [(Hname & Hshort & Hdisplay & Hsortable & Hslug & _) _].
  apply getitem_clean_text_Ok in Hname as (? & _ & Hname).
  apply getitem_clean_text_Ok in Hslug as (? & _ & Hslug).
  split_and!; by eapply clean_text_result_clean.
Qed.

Lemma admin_rows_are_clean_doe :
  exists rs,
    transform_admin_api admin_params doe_fixture = Ok rs
    /\ Forall (fun r => is_clean (name r) /\ is_clean (short_name r)
                        /\ is_clean (display_name r) /\ is_clean (sortable_name r)
                        /\ is_clean (slug r)) rs.
Proof.
  eexists. split; [reflexivity|].
  apply (admin_rows_are_clean admin_params doe_fixture). reflexivity.
Defined.

(** *** Ids and parent links *)

Lemma for_each_invariant {S A : Type} (I : S -> Prop) (body : S -> A -> result S) l :
  (forall st x st', I st -> body st x = Ok st' -> I st') ->
  forall st st', I st -> for_each body st l = Ok st' -> I st'.
Proof.
  intros Hbody. induction l as [|x l IH]; intros st st' HI H.
  - by injection H as <-.
  - cbn [for_each] in H. inv_bind H. eauto.
Qed.

Lemma admin_locals_consistent_push st r new_slug :
  admin_locals_consistent st ->
  agency_id r = next_id st ->
  links_backwards r ->
  admin_locals_consistent
    {| rows := rows st ++ [r];
       slug_to_id := <[new_slug := next_id st]> (slug_to_id st);
       next_id := next_id st + 1 |}.
Proof.
  intros (Hpos & Htable & Hrows) Hid Hlinks. split_and!; cbn.
  - lia.
  - intros k v Hkv. destruct (decide (new_slug = k)) as [->|Hne].
    + rewrite lookup_insert_eq in Hkv. injection Hkv as <-. lia.
    + rewrite lookup_insert_ne in Hkv by done.
      specialize (Htable k v Hkv). lia.
  - apply Forall_app. split; [done|]. by constructor.
Qed.

Lemma child_body_consistent agency_slug st child st' :
  admin_locals_consistent st ->
  child_body agency_slug st child = Ok st' ->
  admin_locals_consistent st'.
Proof.
  intros Hst H. pose proof Hst as (_ & Htable & _).
  unfold child_body in H.
  inv_bind H. inv_bind H. inv_bind H. inv_bind H. inv_bind H. inv_bind H.
  injection H as <-.
  apply admin_locals_consistent_push; [done|done|].
  intros p [= <-]. apply (Htable agency_slug).
  unfold slug_lookup in Hv4. by destruct (slug_to_id st !! agency_slug) as [?|]; simplify_eq.
Qed.

Lemma agency_body_consistent st agency st' :
  admin_locals_consistent st ->
  agency_body st agency = Ok st' ->
  admin_locals_consistent st'.
Proof.
  intros Hst H. unfold agency_body in H.
  inv_bind H. inv_bind H. inv_bind H. inv_bind H. inv_bind H.
  eapply (for_each_invariant admin_locals_consistent); [|idtac|exact H].
  - intros ? ? ?. apply child_body_consistent.
  - by apply admin_locals_consistent_push.
Qed.

(** X4. In the rows the admin transform returns, no [agency_id] occurs
    twice, and every non-null [parent_id] is the [agency_id] of a row
    emitted earlier: parent links never point forward, to the row itself,
    or outside the returned rows. *)
Theorem admin_ids_unique_parents_earlier params api_response rs :
  transform_admin_api params api_response = Ok rs ->
  NoDup (agency_id <$> rs)
  /\ Forall (fun r => forall p,
                 parent_id r = Some p ->
                 p < agency_id r /\ p ∈ agency_id <$> rs) rs.
Proof.
  intros H. destruct (transform_admin_api_Ok _ _ _ H) as [Hids Hall].
  split; [rewrite Hids; apply NoDup_seqZ|].
  unfold transform_admin_api in H. inv_bind H.
  destruct (decide _); [|done]. inv_bind H. injection H as <-.
  eapply (for_each_invariant admin_locals_consistent) in Hv0
    as (_ & _ & Hlinks).
  - apply Forall_forall. intros r Hr p Hp.
    rewrite Forall_forall in Hlinks. specialize (Hlinks r Hr p Hp).
    split; [lia|]. rewrite Hids. apply elem_of_seqZ.
    assert (agency_id r ∈ agency_id <$> rows v0) as Hin
      by by apply list_elem_of_fmap_2.
    rewrite Hids in Hin. apply elem_of_seqZ in Hin. lia.
  - intros ? ? ?. apply agency_body_consistent.
  - split_and!; cbn; [lia|by intros ? ? ?|constructor].
Qed.

Lemma admin_ids_unique_repeated_slug :
  exists rs,
    transform_admin_api admin_params repeated_slug_fixture = Ok rs
    /\ NoDup (agency_id <$> rs)
    /\ Forall (fun r => forall p,
                   parent_id r = Some p ->
                   p < agency_id r /\ p ∈ agency_id <$> rs) rs.
Proof.
  eexists. split; [reflexivity|].
  apply (admin_ids_unique_parents_earlier admin_params repeated_slug_fixture).
  reflexivity.
Defined.

(** ** The versioner transform: nesting *)

Lemma element_ind' (P : element -> Prop) :
  (forall tag attrib text children tail,
      Forall P children -> P (Element tag attrib text children tail)) ->
  forall e, P e.
Proof.
  intros H. fix IH 1. intros [tag attrib text children tail]. apply H.
  induction children as [|c cs IHcs]; constructor; [apply IH|exact IHcs].
Qed.

Lemma descendants_children e d :
  In d (descendants e) <->
  exists c, In c (el_children e) /\ (d = c \/ In d (descendants c)).
Proof.
  destruct e as [tag attrib text children tail]. simpl.
  rewrite in_flat_map. split.
  - intros (c & Hc & [<-|Hd]); exists c; auto.
  - intros (c & Hc & [->|Hd]); exists c; simpl; auto.
Qed.

(** What is below a descendant is below the element itself. *)
Lemma descendants_trans e d x :
  In d (descendants e) -> In x (descendants d) -> In x (descendants e).
Proof.
  revert d x. induction e as [tag attrib text children tail IH] using element_ind'.
  intros d x Hd Hx. apply descendants_children in Hd as (c & Hc & Hd).
  apply descendants_children. exists c. split; [exact Hc|]. right.
  destruct Hd as [->|Hd]; [exact Hx|].
  simpl in Hc. rewrite Forall_forall in IH.
  apply (IH c (proj2 (list_elem_of_In _ _) Hc) d x Hd Hx).
Qed.

Lemma findall_descendant tag e d :
  d ∈ findall tag e <-> In d (descendants e) /\ el_tag d = tag.
Proof.
  unfold findall, has_tag. rewrite list_elem_of_In, filter_In.
  by rewrite bool_decide_eq_true.
Qed.

(** The five elements of a chain are all below the root, each with the
    tag of its level. *)
Lemma nested_in_descendants root div1 div3 div4 div5 div8 :
  nested_in root div1 div3 div4 div5 div8 ->
  Forall2 (fun tag d => In d (descendants root) /\ el_tag d = tag)
          nesting_levels [div1; div3; div4; div5; div8].
Proof.
  intros (H1 & H3 & H4 & H5 & H8).
  apply findall_descendant in H1 as [H1 T1].
  apply findall_descendant in H3 as [H3 T3].
  apply findall_descendant in H4 as [H4 T4].
  apply findall_descendant in H5 as [H5 T5].
  apply findall_descendant in H8 as [H8 T8].
  pose proof (descendants_trans _ _ _ H1 H3) as D3.
  pose proof (descendants_trans _ _ _ D3 H4) as D4.
  pose proof (descendants_trans _ _ _ D4 H5) as D5.
  pose proof (descendants_trans _ _ _ D5 H8) as D8.
  repeat constructor; done.
Qed.

Section VersionerNesting.
Variable fromstring : pystr -> option element.

(** X5. When one of the five levels (title, chapter, subchapter, part,
    section) has no element anywhere in the document, the versioner
    transform returns no row at all, whatever the other levels hold: a
    part that sits directly in its chapter, without a subchapter, loses
    all its sections. *)
Theorem versioner_missing_level_no_rows params api_response root rs level :
  fromstring api_response = Some root ->
  transform_versioner_api fromstring params api_response = Ok rs ->
  level ∈ nesting_levels ->
  tag_absent level root = true ->
  rs = [].
Proof.
  intros Hparse H Hlevel Habsent.
  destruct rs as [|r rs']; [done|]. exfalso.
  destruct (versioner_row_origin fromstring _ _ _ _ r Hparse H)
    as (div1 & div3 & div4 & div5 & div8 & Hnested & _); [apply list_elem_of_here|].
  apply nested_in_descendants in Hnested.
  unfold tag_absent in Habsent. rewrite forallb_forall in Habsent.
  assert (exists d, In d (descendants root) /\ el_tag d = level) as (d & Hd & Htag).
  { unfold nesting_levels in *.
    repeat match goal with
           | H : Forall2 _ (_ :: _) _ |- _ =>
               apply Forall2_cons in H as [[? ?] H]
           end.
    repeat (apply elem_of_cons in Hlevel as [->|Hlevel]; [eauto|]).
    by apply elem_of_nil in Hlevel. }
  specialize (Habsent d Hd). unfold has_tag in Habsent.
  by rewrite bool_decide_true in Habsent.
Qed.
End VersionerNesting.

Lemma versioner_no_subchapter_no_rows :
  transform_versioner_api (fun _ => Some no_subchapter_fixture) versioner_params
                          (str "<ECFR/>") = Ok []
  /\ findall (str "DIV8") no_subchapter_fixture <> [].
Proof.
  split; [|done].
  assert (exists rs, transform_versioner_api (fun _ => Some no_subchapter_fixture)
                       versioner_params (str "<ECFR/>") = Ok rs) as [rs Hrs]
    by by eexists.
  rewrite Hrs. f_equal.
  apply (versioner_missing_level_no_rows (fun _ => Some no_subchapter_fixture)
           versioner_params (str "<ECFR/>") no_subchapter_fixture rs (str "DIV4"));
    [reflexivity|exact Hrs| |reflexivity].
  apply list_elem_of_further, list_elem_of_further, list_elem_of_here.
Defined.

(** ** Configuration and extraction *)

(** X6. [Config('versioner', user_params)] needs both [date] and [title]:
    without [date] it raises [KeyError('date')], with [date] but without
    [title] it raises [KeyError('title')], and with both it returns the
    bundle of exactly service, base URL, date and title, whatever else
    [user_params] holds. *)
Theorem Config_versioner_needs_date_and_title user_params :
  let given := default ∅ user_params in
  (given !! str "date" = None ->
   Config_init (str "versioner") user_params = Raise (KeyError (str "date")))
  /\ (is_Some (given !! str "date") -> given !! str "title" = None ->
      Config_init (str "versioner") user_params = Raise (KeyError (str "title")))
  /\ (forall d t,
         given !! str "date" = Some d -> given !! str "title" = Some t ->
         exists cfg,
           Config_init (str "versioner") user_params = Ok cfg
           /\ config_params cfg
              = {[ str "service" := PStr (str "versioner");
                   str "base_url" := PStr BASE_URL;
                   str "date" := d;
                   str "title" := t ]}).
Proof.
  intros given. unfold Config_init, paramBuilder, dict_getitem. fold given.
  rewrite decide_False by done. rewrite decide_True by done. split_and!.
  - by intros ->.
  - intros [d ->] ->. done.
  - intros d t -> ->. eexists. split; [done|]. cbn.
    vm_compute. reflexivity.
Qed.

Lemma paramBuilder_service service user_params params :
  paramBuilder service user_params = Ok params ->
  params !! str "service" = Some (PStr service).
Proof.
  unfold paramBuilder.
  destruct (decide (service = str "admin")).
  - intros [= <-]. by rewrite !lookup_insert_ne, lookup_singleton_eq.
  - destruct (decide (service = str "versioner")).
    + intros H. inv_bind H. inv_bind H. injection H as <-.
      by rewrite !lookup_insert_ne, lookup_singleton_eq.
    + intros [= <-]. by rewrite lookup_singleton_eq.
Qed.

Lemma paramBuilder_versioner_keys user_params params :
  paramBuilder (str "versioner") user_params = Ok params ->
  is_Some (params !! str "date") /\ is_Some (params !! str "title").
Proof.
  unfold paramBuilder. rewrite decide_False by done. rewrite decide_True by done.
  intros H. inv_bind H. inv_bind H. injection H as <-. split.
  - rewrite lookup_insert_ne, lookup_insert_eq by done. by eexists.
  - rewrite lookup_insert_eq. by eexists.
Qed.

Section ExtractionProperties.
Variable requests_get : pystr -> get_outcome.
Variable response_json : pystr -> option json_payload.

Lemma read_local_Raise {A : Type} variable (binding : option A) e :
  read_local variable binding = Raise e -> e = UnboundLocalError (str variable).
Proof. destruct binding; [done|]. by intros [= <-]. Qed.

Lemma extract_data_Config_Raise service user_params cfg e :
  Config_init service user_params = Ok cfg ->
  extract_data requests_get response_json (DataExtractor_init (config_params cfg))
  = Raise e ->
  e = UnboundLocalError (str "retrieved_data")
  \/ e = UnboundLocalError (str "xml_content")
  \/ e = ServiceNotImplementedError (PStr service).
Proof.
  unfold Config_init. intros Hcfg H. inv_bind Hcfg. injection Hcfg as <-.
  cbn in H. pose proof (paramBuilder_service _ _ _ Hv) as Hservice.
  unfold extract_data in H. cbn in H.
  destruct (decide (v = ∅)) as [->|_]; [by rewrite lookup_empty in Hservice|].
  rewrite Hservice in H.
  destruct (decide (PStr service = PStr (str "admin"))) as [_|_].
  { apply bind_Raise in H as [H|(? & _ & H)]; [|done].
    apply read_local_Raise in H. by left. }
  destruct (decide (PStr service = PStr (str "versioner"))) as [[= ->]|_];
    [|injection H as <-; by right; right].
  destruct (paramBuilder_versioner_keys _ _ Hv) as [[d Hd] [t Ht]].
  unfold dict_getitem in H. rewrite Hd, Ht in H. cbn in H.
  apply bind_Raise in H as [H|(? & _ & H)]; [|done].
  apply read_local_Raise in H. right. by left.
Qed.

(** X7. On a parameter bundle built by [Config], whatever the service
    name and the network, [extract_data] fails in two ways only: with an
    [UnboundLocalError] after a failed fetch, or with a
    [ServiceNotImplementedError] naming the service.  Neither of its two
    [ValueError] guards fires, and no [KeyError] arises. *)
Theorem extract_data_on_Config_failures service user_params cfg e :
  Config_init service user_params = Ok cfg ->
  extract_data requests_get response_json (DataExtractor_init (config_params cfg))
  = Raise e ->
  e = UnboundLocalError (str "retrieved_data")
  \/ e = UnboundLocalError (str "xml_content")
  \/ e = ServiceNotImplementedError (PStr service).
Proof. apply extract_data_Config_Raise. Qed.

(** X8. A service name that [Config] accepts without being supported is
    refused only here: the extraction raises a
    [ServiceNotImplementedError] naming it, whatever the network does. *)
Theorem unsupported_service_fails_at_extraction service user_params :
  service <> str "admin" -> service <> str "versioner" ->
  (cfg ← Config_init service user_params;
   extract_data requests_get response_json (DataExtractor_init (config_params cfg)))
  = Raise (ServiceNotImplementedError (PStr service)).
Proof.
  intros Ha Hv. unfold Config_init.
  rewrite paramBuilder_other_service by done. cbn. unfold extract_data. cbn.
  rewrite decide_False.
  2:{ intros Hempty. apply (f_equal (fun m => m !! str "service")) in Hempty.
      by rewrite lookup_singleton_eq, lookup_empty in Hempty. }
  rewrite lookup_singleton_eq.
  rewrite !decide_False; [done| |]; by intros [= ?].
Qed.

(** X9. The admin extraction returns a payload exactly when the GET is
    answered with a status outside 400..599 and the body decodes: the
    payload is then the decoded body.  The status is not required to be
    2xx. *)
Theorem extract_data_admin_returns_iff self raw :
  extractor_params self !! str "service" = Some (PStr (str "admin")) ->
  extract_data requests_get response_json self = Ok raw
  <-> exists text data,
      passes_status (requests_get (admin_url self)) text
      /\ response_json text = Some data
      /\ raw = RawJson data.
Proof.
  intros Hservice. unfold extract_data.
  destruct (decide (extractor_params self = ∅)) as [Hempty|_].
  { by rewrite Hempty, lookup_empty in Hservice. }
  rewrite Hservice, decide_True by done.
  unfold try_fetch_admin, passes_status, admin_url, raises_for_status.
  destruct (requests_get _) as [|status_code text] eqn:Hget.
  - split; [done|]. by intros (? & ? & (? & ? & _) & _).
  - destruct (Z.leb_spec 400 status_code), (Z.ltb_spec status_code 600); cbn.
    + split; [done|]. intros (? & ? & (? & [= <- <-] & Hst) & _). lia.
    + destruct (response_json text) as [data|] eqn:Hjson; cbn.
      * split.
        -- intros [= <-]. exists text, data. split_and!; [|done|done].
           exists status_code. split; [done|lia].
        -- intros (? & ? & (? & [= <- <-] & _) & Hj & ->). congruence.
      * split; [done|]. intros (? & ? & (? & [= <- <-] & _) & Hj & _). congruence.
    + destruct (response_json text) as [data|] eqn:Hjson; cbn.
      * split.
        -- intros [= <-]. exists text, data. split_and!; [|done|done].
           exists status_code. split; [done|lia].
        -- intros (? & ? & (? & [= <- <-] & _) & Hj & ->). congruence.
      * split; [done|]. intros (? & ? & (? & [= <- <-] & _) & Hj & _). congruence.
    + lia.
Qed.

(** X10. The versioner extraction reads [date] and [title] before it
    fetches: a missing key is a [KeyError] on every network.  With both,
    it returns exactly when the GET of
    [{base_url}/api/versioner/v1/full/{date}/title-{title}.xml] is
    answered with a status outside 400..599, and then returns the body
    unchanged. *)
Theorem extract_data_versioner_returns_iff self raw :
  extractor_params self !! str "service" = Some (PStr (str "versioner")) ->
  match extractor_params self !! str "date", extractor_params self !! str "title" with
  | None, _ =>
      extract_data requests_get response_json self = Raise (KeyError (str "date"))
  | Some _, None =>
      extract_data requests_get response_json self = Raise (KeyError (str "title"))
  | Some date, Some title_ =>
      extract_data requests_get response_json self = Ok raw
      <-> exists text,
          passes_status (requests_get (versioner_url self date title_)) text
          /\ raw = RawText text
  end.
Proof.
  intros Hservice. unfold extract_data.
  destruct (decide (extractor_params self = ∅)) as [Hempty|_].
  { by rewrite Hempty, lookup_empty in Hservice. }
  rewrite Hservice. rewrite decide_False by done. rewrite decide_True by done.
  unfold dict_getitem.
  destruct (extractor_params self !! str "date") as [date|]; [|done].
  destruct (extractor_params self !! str "title") as [title_|]; [|done]. cbn.
  unfold try_fetch_versioner, passes_status, versioner_url, raises_for_status.
  destruct (requests_get _) as [|status_code text] eqn:Hget.
  - split; [done|]. by intros (? & (? & ? & _) & _).
  - destruct (Z.leb_spec 400 status_code), (Z.ltb_spec status_code 600); cbn.
    + split; [done|]. intros (? & (? & [= <- <-] & Hst) & _). lia.
    + split.
      * intros [= <-]. exists text. split; [|done].
        exists status_code. split; [done|lia].
      * by intros (? & (? & [= <- <-] & _) & ->).
    + split.
      * intros [= <-]. exists text. split; [|done].
        exists status_code. split; [done|lia].
      * by intros (? & (? & [= <- <-] & _) & ->).
    + lia.
Qed.
End ExtractionProperties.

Lemma extract_data_on_Config_failures_admin :
  let e := UnboundLocalError (str "retrieved_data") in
  e = UnboundLocalError (str "retrieved_data")
  \/ e = UnboundLocalError (str "xml_content")
  \/ e = ServiceNotImplementedError (PStr (str "admin")).
Proof.
  apply (extract_data_on_Config_failures
           (fun _ => RequestException) (fun _ => None) (str "admin") None
           {| config_service := str "admin"; config_user_params := ∅;
              config_params := admin_params |}).
  - vm_compute. reflexivity.
  - reflexivity.
Defined.

Lemma unsupported_service_fails_at_extraction_search :
  (cfg ← Config_init (str "search") None;
   extract_data (fun _ => Response 200 (str "{...}")) (fun _ => Some doe_fixture)
                (DataExtractor_init (config_params cfg)))
  = Raise (ServiceNotImplementedError (PStr (str "search"))).
Proof.
  apply (unsupported_service_fails_at_extraction
           (fun _ => Response 200 (str "{...}")) (fun _ => Some doe_fixture)
           (str "search") None); discriminate.
Defined.

Lemma extract_data_admin_not_modified :
  extract_data not_modified_network (fun _ => Some doe_fixture)
               (DataExtractor_init admin_params)
  = Ok (RawJson doe_fixture).
Proof.
  apply (extract_data_admin_returns_iff not_modified_network
           (fun _ => Some doe_fixture) (DataExtractor_init admin_params)).
  - reflexivity.
  - exists (str "{...}"), doe_fixture. split_and!; [|reflexivity|reflexivity].
    exists 304. split; [reflexivity|lia].
Defined.

Lemma extract_data_versioner_title_1 :
  extract_data title_1_network (fun _ => None)
               (DataExtractor_init versioner_params)
  = Ok (RawText (str "<ECFR>...</ECFR>")).
Proof.
  pose proof (extract_data_versioner_returns_iff title_1_network (fun _ => None)
                (DataExtractor_init versioner_params)
                (RawText (str "<ECFR>...</ECFR>")) eq_refl) as H.
  assert (extractor_params (DataExtractor_init versioner_params) !! str "date"
          = Some (PStr (str "2025-01-01"))) as Hd by reflexivity.
  assert (extractor_params (DataExtractor_init versioner_params) !! str "title"
          = Some (PStr (str "1"))) as Ht by reflexivity.
  rewrite Hd, Ht in H. apply H.
  exists (str "<ECFR>...</ECFR>"). split; [|reflexivity].
  exists 200. split; [reflexivity|lia].
Defined.

(** ** The loader *)

Lemma without_conflicts_no_slug agency table k r :
  without_conflicts agency table !! k = Some r ->
  k <> agency_id agency /\ col_slug r <> slug agency /\ table !! k = Some r.
Proof.
  rewrite without_conflicts_lookup.
  destruct (decide (k = agency_id agency)); [done|].
  destruct (table !! k) as [r'|]; [|done].
  destruct (decide (col_slug r' = slug agency)); [done|]. by intros [= <-].
Qed.

Lemma insert_agency_table conn agency conn' :
  insert_agency conn agency = Ok conn' ->
  agencies_table (db conn')
  = <[agency_id agency := columns_of agency]>
      (without_conflicts agency (agencies_table (db conn)))
  /\ cfr_sections_table (db conn') = cfr_sections_table (db conn)
  /\ cfr_sections_seq (db conn') = cfr_sections_seq (db conn)
  /\ cfr_references_table (db conn') = cfr_references_table (db conn)
  /\ cfr_references_seq (db conn') = cfr_references_seq (db conn)
  /\ foreign_keys conn' = foreign_keys conn.
Proof.
  unfold insert_agency. destruct (_ && _); [done|]. by intros [= <-].
Qed.

Lemma insert_agency_unchecked conn agency :
  foreign_keys conn = false -> exists conn', insert_agency conn agency = Ok conn'.
Proof. intros Hoff. unfold insert_agency. rewrite Hoff. by eexists. Qed.

(** X11. [insert_agency] is idempotent: inserting the row that was just
    inserted changes nothing, on every connection. *)
Theorem insert_agency_idempotent conn agency conn1 :
  insert_agency conn agency = Ok conn1 ->
  insert_agency conn1 agency = Ok conn1.
Proof.
  intros H. destruct (insert_agency_table _ _ _ H)
    as (Htable & Hsec & Hsseq & Href & Hrseq & Hfk).
  unfold insert_agency.
  rewrite without_conflicts_delete, insert_delete_eq.
  - rewrite dangling_reference_same_keys, andb_false_r.
    + rewrite insert_id by (rewrite Htable; apply lookup_insert_eq).
      by destruct conn1 as [fk [? ? ? ? ?]].
    + intros k Hk. rewrite insert_id; [done|].
      rewrite Htable. apply lookup_insert_eq.
  - intros k r Hk Hslug. rewrite Htable in Hk.
    destruct (decide (agency_id agency = k)) as [<-|Hne]; [done|].
    rewrite lookup_insert_ne in Hk by done.
    by apply without_conflicts_no_slug in Hk as (_ & ? & _).
Qed.

Lemma insert_agency_idempotent_two_agencies :
  exists conn1,
    insert_agency (DatabaseLoader_init two_agencies) agency_1_with_slug_b = Ok conn1
    /\ insert_agency conn1 agency_1_with_slug_b = Ok conn1.
Proof.
  eexists. split; [reflexivity|].
  apply (insert_agency_idempotent (DatabaseLoader_init two_agencies)).
  reflexivity.
Defined.

Lemma insert_agency_rows conn agency conn' :
  insert_agency conn agency = Ok conn' ->
  agencies_table (db conn') !! agency_id agency = Some (columns_of agency)
  /\ (unique_slugs (agencies_table (db conn)) ->
      unique_slugs (agencies_table (db conn')))
  /\ (forall k r, k <> agency_id agency ->
                  agencies_table (db conn') !! k = Some r ->
                  agencies_table (db conn) !! k = Some r
                  /\ col_slug r <> slug agency).
Proof.
  intros H. apply insert_agency_table in H as (Htable & _). rewrite Htable.
  assert (forall k r, k <> agency_id agency ->
            <[agency_id agency := columns_of agency]>
              (without_conflicts agency (agencies_table (db conn))) !! k = Some r ->
            agencies_table (db conn) !! k = Some r /\ col_slug r <> slug agency)
    as Hother.
  { intros k r Hk Hr. rewrite lookup_insert_ne in Hr by done.
    by apply without_conflicts_no_slug in Hr as (_ & ? & ?). }
  split_and!; [apply lookup_insert_eq| |exact Hother].
  intros Hunique k1 k2 r1 r2 H1 H2 Hslug.
  destruct (decide (k1 = agency_id agency)) as [->|Hne1],
           (decide (k2 = agency_id agency)) as [->|Hne2]; [done| | |].
  - rewrite lookup_insert_eq in H1. injection H1 as <-.
    apply Hother in H2 as [_ H2]; [|done]. by rewrite <- Hslug in H2.
  - rewrite lookup_insert_eq in H2. injection H2 as <-.
    apply Hother in H1 as [_ H1]; [|done]. by rewrite Hslug in H1.
  - apply Hother in H1 as [H1 _]; [|done]. apply Hother in H2 as [H2 _]; [|done].
    by eapply Hunique.
Qed.

(** X12. After [insert_agency] the row is stored under its key, no two
    keys hold the same slug if none did before, and every other row of
    the table was there before, unchanged: the insertion creates and
    changes nothing but the row of its own key. *)
Theorem insert_agency_keeps_unique_slugs conn agency conn' :
  insert_agency conn agency = Ok conn' ->
  agencies_table (db conn') !! agency_id agency = Some (columns_of agency)
  /\ (unique_slugs (agencies_table (db conn)) ->
      unique_slugs (agencies_table (db conn')))
  /\ (forall k r, k <> agency_id agency ->
                  agencies_table (db conn') !! k = Some r ->
                  agencies_table (db conn) !! k = Some r
                  /\ col_slug r <> slug agency).
Proof. apply insert_agency_rows. Qed.

Lemma insert_agency_keeps_unique_slugs_two_agencies :
  exists conn',
    insert_agency (DatabaseLoader_init two_agencies) agency_1_with_slug_b = Ok conn'
    /\ agencies_table (db conn') !! 1 = Some (columns_of agency_1_with_slug_b)
    /\ agencies_table (db conn') !! 2 = None.
Proof.
  eexists. split; [reflexivity|].
  destruct (insert_agency_keeps_unique_slugs (DatabaseLoader_init two_agencies)
              agency_1_with_slug_b _ eq_refl) as (Hrow & _ & _).
  split; [exact Hrow|reflexivity].
Defined.

(** *** Sections *)

Lemma insert_cfr_section_appends conn section :
  exists conn',
    insert_cfr_section conn section = Ok conn'
    /\ cfr_sections_table (db conn')
       = cfr_sections_table (db conn) ++ [(cfr_sections_seq (db conn) + 1, section)]
    /\ cfr_sections_seq (db conn') = cfr_sections_seq (db conn) + 1
    /\ agencies_table (db conn') = agencies_table (db conn)
    /\ cfr_references_table (db conn') = cfr_references_table (db conn)
    /\ cfr_references_seq (db conn') = cfr_references_seq (db conn)
    /\ foreign_keys conn' = foreign_keys conn.
Proof. eexists. by split_and!. Qed.

Lemma load_versioner_data_appends transformed :
  forall conn,
  exists conn',
    load_versioner_data conn transformed = Ok conn'
    /\ cfr_sections_table (db conn')
       = cfr_sections_table (db conn)
         ++ zip (seqZ (cfr_sections_seq (db conn) + 1) (Z.of_nat (length transformed)))
                transformed
    /\ cfr_sections_seq (db conn')
       = cfr_sections_seq (db conn) + Z.of_nat (length transformed)
    /\ agencies_table (db conn') = agencies_table (db conn)
    /\ cfr_references_table (db conn') = cfr_references_table (db conn)
    /\ cfr_references_seq (db conn') = cfr_references_seq (db conn)
    /\ foreign_keys conn' = foreign_keys conn.
Proof.
  unfold load_versioner_data.
  induction transformed as [|s l IH]; intros conn.
  - exists conn. split_and!; try done; [by rewrite app_nil_r|simpl; lia].
  - destruct (insert_cfr_section_appends conn s)
      as (c1 & Hins & Htab & Hseq & Hag & Href & Hrseq & Hfk).
    destruct (IH c1) as (c2 & Hload & Htab2 & Hseq2 & Hag2 & Href2 & Hrseq2 & Hfk2).
    exists c2. cbn [for_each]. rewrite Hins. split_and!;
      [exact Hload| | |congruence..].
    + rewrite Htab2, Htab, Hseq, <- app_assoc. f_equal.
      rewrite (seqZ_cons (cfr_sections_seq (db conn) + 1)) by (simpl length; lia).
      simpl. do 3 f_equal; lia.
    + rewrite Hseq2, Hseq. simpl length. lia.
Qed.



(** *** Loading the admin rows *)

Lemma insert_cfr_reference_off conn agency_id_ reference :
  foreign_keys conn = false ->
  insert_cfr_reference conn agency_id_ reference
  = Ok {| foreign_keys := false;
          db := {| agencies_table := agencies_table (db conn);
                   cfr_sections_table := cfr_sections_table (db conn);
                   cfr_sections_seq := cfr_sections_seq (db conn);
                   cfr_references_table :=
                     cfr_references_table (db conn)
                     ++ [ {| col_reference_id := cfr_references_seq (db conn) + 1;
                             col_agency_id := agency_id_;
                             col_title := text_affinity (title reference);
                             col_chapter := text_affinity (chapter reference);
                             col_part := text_affinity (part reference) |} ];
                   cfr_references_seq := cfr_references_seq (db conn) + 1 |} |}.
Proof. intros Hoff. unfold insert_cfr_reference. by rewrite Hoff. Qed.

Lemma references_loop_appends agency_id_ references :
  forall conn,
    foreign_keys conn = false ->
    exists conn',
      for_each (fun conn ref => insert_cfr_reference conn agency_id_ ref)
               conn references = Ok conn'
      /\ foreign_keys conn' = false
      /\ agencies_table (db conn') = agencies_table (db conn)
      /\ cfr_sections_table (db conn') = cfr_sections_table (db conn)
      /\ cfr_sections_seq (db conn') = cfr_sections_seq (db conn)
      /\ exists new,
          cfr_references_table (db conn') = cfr_references_table (db conn) ++ new
          /\ reference_content <$> new
             = (fun ref => (agency_id_, text_affinity (title ref),
                            text_affinity (chapter ref), text_affinity (part ref)))
                 <$> references
          /\ col_reference_id <$> new
             = seqZ (cfr_references_seq (db conn) + 1) (Z.of_nat (length references))
          /\ cfr_references_seq (db conn')
             = cfr_references_seq (db conn) + Z.of_nat (length references).
Proof.
  induction references as [|ref l IH]; intros conn Hoff.
  - exists conn. split_and!; try done. exists [].
    split_and!; [by rewrite app_nil_r|done|done|simpl; lia].
  - cbn [for_each]. rewrite insert_cfr_reference_off by done. cbn.
    match goal with |- context [for_each _ ?c l] => destruct (IH c) as
        (c2 & Hloop & Hfk & Hag & Hsec & Hsseq & new & Htab & Hcontent & Hids & Hseq);
        [done|] end.
    exists c2. cbn in Hag, Hsec, Hsseq, Htab, Hids, Hseq.
    split_and!; try done.
    eexists (_ :: new). split_and!.
    + by rewrite Htab, <- app_assoc.
    + by rewrite !fmap_cons, Hcontent.
    + rewrite fmap_cons, Hids. cbn.
      rewrite (seqZ_cons (cfr_references_seq (db conn) + 1)) by (simpl length; lia).
      do 2 f_equal; simpl length; lia.
    + rewrite Hseq. simpl length. lia.
Qed.

Lemma load_admin_data_cons conn agency transformed :
  load_admin_data conn (agency :: transformed)
  = (conn1 ← insert_agency conn agency;
     conn2 ← for_each (fun conn ref => insert_cfr_reference conn (agency_id agency) ref)
                      conn1 (cfr_references agency);
     load_admin_data conn2 transformed).
Proof.
  unfold load_admin_data. cbn [for_each].
  destruct (insert_agency conn agency) as [conn1|e]; [|done]. cbn.
  by destruct (for_each _ conn1 (cfr_references agency)).
Qed.

(** The state after [load_admin_data] on a connection without foreign
    keys, against the state before. *)
Lemma load_admin_data_unchecked transformed :
  forall conn,
    foreign_keys conn = false ->
    exists conn',
      load_admin_data conn transformed = Ok conn'
      /\ foreign_keys conn' = false
      /\ cfr_sections_table (db conn') = cfr_sections_table (db conn)
      /\ (unique_slugs (agencies_table (db conn)) ->
          unique_slugs (agencies_table (db conn')))
      /\ (forall k r, agencies_table (db conn') !! k = Some r ->
                      (k ∈ agency_id <$> transformed)
                      \/ agencies_table (db conn) !! k = Some r)
      /\ (forall k r, agencies_table (db conn) !! k = Some r ->
                      k ∉ agency_id <$> transformed ->
                      col_slug r ∉ slug <$> transformed ->
                      agencies_table (db conn') !! k = Some r)
      /\ (NoDup (agency_id <$> transformed) -> NoDup (slug <$> transformed) ->
          forall a, a ∈ transformed ->
                    agencies_table (db conn') !! agency_id a = Some (columns_of a))
      /\ exists new,
          cfr_references_table (db conn') = cfr_references_table (db conn) ++ new
          /\ reference_content <$> new = transformed ≫= bound_references
          /\ col_reference_id <$> new
             = seqZ (cfr_references_seq (db conn) + 1) (Z.of_nat (length new)).
Proof.
  induction transformed as [|a l IH]; intros conn Hoff.
  - exists conn. split_and!; try done.
    + intros k r Hk. by right.
    + intros _ _ a Ha. by apply elem_of_nil in Ha.
    + exists []. by rewrite app_nil_r.
  - rewrite load_admin_data_cons.
    destruct (insert_agency_unchecked conn a Hoff) as (c1 & Hins).
    destruct (insert_agency_table _ _ _ Hins)
      as (Htable & Hsec1 & _ & Href1 & Hrseq1 & Hfk1).
    destruct (insert_agency_rows conn a c1 Hins)
      as (Hrow1 & Huniq1 & Hother1).
    rewrite Hins. cbn. rewrite Hoff in Hfk1.
    destruct (references_loop_appends (agency_id a) (cfr_references a) c1 Hfk1)
      as (c2 & Hloop & Hfk2 & Hag2 & Hsec2 & _ & new1 & Htab2 & Hcont2 & Hids2 & Hseq2).
    rewrite Hloop. cbn.
    destruct (IH c2 Hfk2)
      as (c3 & Hload & Hfk3 & Hsec3 & Huniq3 & Hfrom3 & Hkeep3 & Hall3
          & new2 & Htab3 & Hcont3 & Hids3).
    rewrite Hag2 in *.
    exists c3. split_and!; [done|done|congruence|tauto| | | |].
    + intros k r Hk. rewrite ?fmap_cons.
      destruct (Hfrom3 k r Hk) as [Hin|Hk2]; [left; by right|].
      destruct (decide (k = agency_id a)) as [->|Hne]; [left; by left|].
      right. by apply Hother1.
    + intros k r Hk Hnotid Hnotslug. rewrite ?fmap_cons in Hnotid, Hnotslug.
      apply not_elem_of_cons in Hnotid as [Hne Hnotid].
      apply not_elem_of_cons in Hnotslug as [Hns Hnotslug].
      apply Hkeep3; [|done|done].
      rewrite Htable, lookup_insert_ne by done.
      rewrite without_conflicts_lookup, decide_False, Hk by done.
      by rewrite decide_False.
    + intros Hnodup_id Hnodup_slug a' Ha'.
      rewrite ?fmap_cons in Hnodup_id, Hnodup_slug.
      apply NoDup_cons in Hnodup_id as [Hid_a Hnodup_id].
      apply NoDup_cons in Hnodup_slug as [Hslug_a Hnodup_slug].
      apply elem_of_cons in Ha' as [->|Ha']; [|by apply Hall3].
      by apply Hkeep3.
    + exists (new1 ++ new2). split_and!.
      * by rewrite Htab3, Htab2, Href1, <- app_assoc.
      * rewrite fmap_app, Hcont2, Hcont3. done.
      * rewrite fmap_app, Hids2, Hids3, Hseq2, Hrseq1, length_app, Nat2Z.inj_add.
        assert (length new1 = length (cfr_references a)) as ->.
        { by rewrite <- (length_fmap reference_content), Hcont2, length_fmap. }
        symmetry. rewrite seqZ_app by lia. do 2 f_equal. lia.
Qed.


(** X15. When the rows of one run have distinct ids and distinct slugs,
    after [load_admin_data] every one of them is stored under its id, so
    every reference row the run appended points to a stored agency; and
    on a database without agencies the table then holds exactly as many
    rows as the run had. *)
Theorem load_admin_data_stores_every_row stored transformed :
  NoDup (agency_id <$> transformed) ->
  NoDup (slug <$> transformed) ->
  exists conn',
    load_admin_data (DatabaseLoader_init stored) transformed = Ok conn'
    /\ (forall a, a ∈ transformed ->
                  agencies_table (db conn') !! agency_id a = Some (columns_of a))
    /\ (forall content, content ∈ transformed ≫= bound_references ->
                        is_Some (agencies_table (db conn') !! content.1.1.1))
    /\ (agencies_table stored = ∅ ->
        size (agencies_table (db conn')) = length transformed).
Proof.
  intros Hids Hslugs.
  destruct (load_admin_data_unchecked transformed (DatabaseLoader_init stored) eq_refl)
    as (conn' & Hload & _ & _ & _ & Hfrom & _ & Hall & _).
  specialize (Hall Hids Hslugs).
  exists conn'. split_and!; [done|done| |].
  - intros content Hin. apply list_elem_of_bind in Hin as (a & Hin & Ha).
    unfold bound_references in Hin.
    apply list_elem_of_fmap in Hin as (ref & -> & _). simpl.
    rewrite (Hall a Ha). by eexists.
  - intros Hempty. cbn in Hfrom. rewrite Hempty in Hfrom.
    rewrite <- size_dom, <- (length_fmap agency_id).
    rewrite <- (size_list_to_set (C := gset Z)) by done. f_equal.
    apply set_eq. intros k. rewrite elem_of_dom, elem_of_list_to_set. split.
    + intros [r Hr]. destruct (Hfrom k r Hr) as [?|Hk]; [done|].
      by rewrite lookup_empty in Hk.
    + intros Hk. apply list_elem_of_fmap in Hk as (a & -> & Ha).
      rewrite (Hall a Ha). by eexists.
Qed.

Lemma load_admin_data_stores_loaded_rows :
  exists conn',
    load_admin_data (DatabaseLoader_init empty_database) loaded_rows = Ok conn'
    /\ size (agencies_table (db conn')) = 3%nat
    /\ length (cfr_references_table (db conn')) = 3%nat.
Proof.
  destruct (load_admin_data_stores_every_row empty_database loaded_rows)
    as (conn' & Hload & _ & _ & Hsize).
  - compute_done.
  - compute_done.
  - exists conn'. split; [exact Hload|]. split; [by apply Hsize|].
    by injection Hload as <-.
Defined.

(** Loading rows that are stored already, in a table with unique slugs,
    leaves the table as it is. *)
Lemma load_admin_data_again transformed :
  forall conn,
    foreign_keys conn = false ->
    unique_slugs (agencies_table (db conn)) ->
    (forall a, a ∈ transformed ->
               agencies_table (db conn) !! agency_id a = Some (columns_of a)) ->
    exists conn',
      load_admin_data conn transformed = Ok conn'
      /\ agencies_table (db conn') = agencies_table (db conn).
Proof.
  induction transformed as [|a l IH]; intros conn Hoff Hunique Hstored.
  - by exists conn.
  - rewrite load_admin_data_cons.
    destruct (insert_agency_unchecked conn a Hoff) as (c1 & Hins).
    destruct (insert_agency_table _ _ _ Hins) as (Htable & _ & _ & _ & _ & Hfk1).
    assert (agencies_table (db c1) = agencies_table (db conn)) as Hsame.
    { rewrite Htable, without_conflicts_delete, insert_delete_eq.
      - apply insert_id, Hstored, list_elem_of_here.
      - intros k r Hk Hslug.
        eapply Hunique; [exact Hk|apply Hstored, list_elem_of_here|done]. }
    rewrite Hins. cbn. rewrite Hoff in Hfk1.
    destruct (references_loop_appends (agency_id a) (cfr_references a) c1 Hfk1)
      as (c2 & Hloop & Hfk2 & Hag2 & _).
    rewrite Hloop. cbn.
    destruct (IH c2 Hfk2) as (c3 & Hload & Hag3).
    + by rewrite Hag2, Hsame.
    + intros a' Ha'. rewrite Hag2, Hsame. by apply Hstored, list_elem_of_further.
    + exists c3. split; [done|]. by rewrite Hag3, Hag2.
Qed.

(** X16. A second [load_admin_data] of the same rows (distinct ids and
    slugs, on a table whose slugs were unique) leaves the agencies table
    exactly as the first left it, and appends all the references once
    more: every run of the pipeline duplicates the reference rows. *)
Theorem load_admin_data_rerun_duplicates_references stored transformed conn1 :
  unique_slugs (agencies_table stored) ->
  NoDup (agency_id <$> transformed) ->
  NoDup (slug <$> transformed) ->
  load_admin_data (DatabaseLoader_init stored) transformed = Ok conn1 ->
  exists conn2 again,
    load_admin_data conn1 transformed = Ok conn2
    /\ agencies_table (db conn2) = agencies_table (db conn1)
    /\ cfr_references_table (db conn2) = cfr_references_table (db conn1) ++ again
    /\ reference_content <$> again = transformed ≫= bound_references
    /\ reference_content <$> cfr_references_table (db conn2)
       = (reference_content <$> cfr_references_table stored)
         ++ (transformed ≫= bound_references) ++ (transformed ≫= bound_references).
Proof.
  intros Hunique Hids Hslugs Hload.
  destruct (load_admin_data_unchecked transformed (DatabaseLoader_init stored) eq_refl)
    as (c1 & Hload1 & Hfk1 & _ & Huniq1 & _ & _ & Hall1 & new1 & Htab1 & Hcont1 & _).
  rewrite Hload in Hload1. injection Hload1 as <-.
  destruct (load_admin_data_unchecked transformed conn1 Hfk1)
    as (c2 & Hload2 & _ & _ & _ & _ & _ & _ & new2 & Htab2 & Hcont2 & _).
  destruct (load_admin_data_again transformed conn1 Hfk1 (Huniq1 Hunique)
              (Hall1 Hids Hslugs)) as (c2' & Hload2' & Hag2).
  rewrite Hload2 in Hload2'. injection Hload2' as <-.
  exists c2, new2. split_and!; [done|done|done|done|].
  rewrite Htab2, Htab1, !fmap_app, Hcont1, Hcont2. cbn. by rewrite <- app_assoc.
Qed.

Lemma load_admin_data_rerun_loaded_rows :
  exists conn1 conn2,
    load_admin_data (DatabaseLoader_init empty_database) loaded_rows = Ok conn1
    /\ load_admin_data conn1 loaded_rows = Ok conn2
    /\ agencies_table (db conn2) = agencies_table (db conn1)
    /\ length (cfr_references_table (db conn1)) = 3%nat
    /\ length (cfr_references_table (db conn2)) = 6%nat.
Proof.
  destruct (load_admin_data_unchecked loaded_rows
              (DatabaseLoader_init empty_database) eq_refl) as (conn1 & Hload & _).
  destruct (load_admin_data_rerun_duplicates_references
              empty_database loaded_rows conn1)
    as (conn2 & again & Hload2 & Hag & _ & _ & _).
  - intros k1 k2 r1 r2 H1. cbn in H1. by rewrite lookup_empty in H1.
  - compute_done.
  - compute_done.
  - exact Hload.
  - exists conn1, conn2. split; [exact Hload|]. split; [exact Hload2|].
    split; [exact Hag|]. injection Hload as <-. split; [reflexivity|].
    by injection Hload2 as <-.
Defined.

(** ** The pipeline *)

(** *** What is committed *)

Lemma references_call_loop agency_id_ references :
  forall s,
    foreign_keys (view s) = false ->
    exists s',
      each_call (insert_cfr_reference_call agency_id_) references s = (s', None)
      /\ for_each (fun conn ref => insert_cfr_reference conn agency_id_ ref)
                  (view s) references = Ok (view s')
      /\ foreign_keys (view s') = false
      /\ committed s' = match references with
                        | [] => committed s
                        | _ :: _ => db (view s')
                        end.
Proof.
  induction references as [|ref l IH]; intros s Hoff; [by exists s|].
  cbn [each_call for_each]. unfold insert_cfr_reference_call.
  rewrite insert_cfr_reference_off by done. cbn.
  match goal with |- context [each_call _ l ?s1] =>
    destruct (IH s1) as (s' & Hcall & Hloop & Hfk & Hcommitted); [done|] end.
  exists s'. split_and!; [done|done|done|].
  destruct l; [|done]. cbn in Hcall. by injection Hcall as <-.
Qed.

Lemma sections_call_loop cfr_data :
  forall s,
  exists s',
    each_call insert_cfr_section_call cfr_data s = (s', None)
    /\ load_versioner_data (view s) cfr_data = Ok (view s')
    /\ committed s' = match cfr_data with
                      | [] => committed s
                      | _ :: _ => db (view s')
                      end.
Proof.
  unfold load_versioner_data.
  induction cfr_data as [|section l IH]; intros s; [by exists s|].
  cbn [each_call for_each]. unfold insert_cfr_section_call. cbn.
  match goal with |- context [each_call _ l ?s1] =>
    destruct (IH s1) as (s' & Hcall & Hloop & Hcommitted) end.
  exists s'. split_and!; [done|done|].
  destruct l; [|done]. cbn in Hcall. by injection Hcall as <-.
Qed.

Lemma load_admin_data_call_cons agency agency_rows s :
  load_admin_data_call (AdminRows (agency :: agency_rows)) s
  = match insert_agency_call agency s with
    | (s1, None) =>
        match each_call (insert_cfr_reference_call (agency_id agency))
                        (cfr_references agency) s1 with
        | (s2, None) => load_admin_data_call (AdminRows agency_rows) s2
        | (s2, Some f) => (s2, Some f)
        end
    | (s1, Some f) => (s1, Some f)
    end.
Proof.
  cbn [load_admin_data_call each_call].
  destruct (insert_agency_call agency s) as [s1 [f|]]; [done|].
  by destruct (each_call _ (cfr_references agency) s1) as [s2 [f|]].
Qed.

(** One agency row and its references, on a session without foreign
    keys. *)
Lemma load_one_agency_call agency s :
  foreign_keys (view s) = false ->
  exists s1 s2,
    insert_agency_call agency s = (s1, None)
    /\ each_call (insert_cfr_reference_call (agency_id agency))
                 (cfr_references agency) s1 = (s2, None)
    /\ load_admin_data (view s) [agency] = Ok (view s2)
    /\ foreign_keys (view s2) = false
    /\ committed s2 = match cfr_references agency with
                      | [] => committed s
                      | _ :: _ => db (view s2)
                      end.
Proof.
  intros Hoff. unfold insert_agency_call.
  destruct (insert_agency_unchecked (view s) agency Hoff) as (c1 & Hins).
  rewrite Hins.
  pose proof (insert_agency_foreign_keys _ _ _ Hins) as Hfk1. rewrite Hoff in Hfk1.
  destruct (references_call_loop (agency_id agency) (cfr_references agency)
              {| view := c1; committed := committed s |} Hfk1)
    as (s2 & Hcall & Hloop & Hfk2 & Hcommitted).
  eexists _, s2. split_and!; [done|done| |done|done].
  rewrite load_admin_data_cons, Hins. cbn. cbn in Hloop. by rewrite Hloop.
Qed.

Lemma load_admin_data_app conn front back :
  load_admin_data conn (front ++ back)
  = (conn1 ← load_admin_data conn front; load_admin_data conn1 back).
Proof.
  revert conn. induction front as [|a l IH]; intros conn; [done|].
  rewrite <- app_comm_cons, !load_admin_data_cons.
  destruct (insert_agency conn a) as [c1|]; [|done]. cbn.
  destruct (for_each _ c1 (cfr_references a)) as [c2|]; [|done]. cbn.
  apply IH.
Qed.

Lemma load_admin_data_call_unchecked agency_rows :
  forall s,
    foreign_keys (view s) = false ->
    exists s',
      load_admin_data_call (AdminRows agency_rows) s = (s', None)
      /\ load_admin_data (view s) agency_rows = Ok (view s')
      /\ foreign_keys (view s') = false
      /\ (Forall no_references agency_rows -> committed s' = committed s)
      /\ (forall front a back conn,
             agency_rows = front ++ a :: back ->
             cfr_references a <> [] ->
             Forall no_references back ->
             load_admin_data (view s) (front ++ [a]) = Ok conn ->
             committed s' = db conn).
Proof.
  induction agency_rows as [|x l IH]; intros s Hoff.
  - exists s. split_and!; try done. intros [|? ?] ? ? ? ?; done.
  - destruct (load_one_agency_call x s Hoff)
      as (s1 & s2 & Hins & Hrefs & Hone & Hfk2 & Hcommitted2).
    destruct (IH s2 Hfk2) as (s' & Hcall & Hload & Hfk' & Hnone & Hlast).
    exists s'. rewrite load_admin_data_call_cons, Hins, Hrefs.
    change (x :: l) with ([x] ++ l).
    rewrite load_admin_data_app, Hone. cbn.
    split_and!; [done|done|done| |].
    + intros Hall. apply Forall_cons in Hall as [Hx Hl].
      rewrite (Hnone Hl), Hcommitted2. unfold no_references in Hx. by rewrite Hx.
    + intros front a back conn Heq Ha Hback Hconn.
      destruct front as [|y front'].
      * simpl in Heq. injection Heq as <- <-.
        rewrite (Hnone Hback), Hcommitted2.
        simpl in Hconn. rewrite Hone in Hconn. injection Hconn as <-.
        by destruct (cfr_references x).
      * simpl in Heq. injection Heq as <- ->.
        eapply Hlast; [done|done|done|].
        rewrite <- app_comm_cons in Hconn.
        change (x :: front' ++ [a]) with ([x] ++ (front' ++ [a])) in Hconn.
        rewrite load_admin_data_app, Hone in Hconn. exact Hconn.
Qed.

(** X17. What the admin load leaves in the file.  [insert_agency] does
    not commit; each [insert_cfr_reference] does.  So the loader reads
    back every row it inserted, but the file holds the state as of the
    last reference inserted: nothing at all when no row had a reference,
    and not the agencies that came after the last row with one. *)
Theorem load_admin_data_commits_up_to_last_reference stored agency_rows :
  exists s',
    load_admin_data_call (AdminRows agency_rows) (session_open stored) = (s', None)
    /\ load_admin_data (DatabaseLoader_init stored) agency_rows = Ok (view s')
    /\ (Forall no_references agency_rows -> committed s' = stored)
    /\ (forall front a back conn,
           agency_rows = front ++ a :: back ->
           cfr_references a <> [] ->
           Forall no_references back ->
           load_admin_data (DatabaseLoader_init stored) (front ++ [a]) = Ok conn ->
           committed s' = db conn).
Proof.
  destruct (load_admin_data_call_unchecked agency_rows (session_open stored) eq_refl)
    as (s' & Hcall & Hload & _ & Hnone & Hlast).
  by exists s'.
Qed.

(** The third of [loaded_rows] comes after the last reference: the loader
    sees three agencies, the file holds two. *)
Example load_admin_data_call_loaded_rows :
  exists s',
    load_admin_data_call (AdminRows loaded_rows) (session_open empty_database)
    = (s', None)
    /\ size (agencies_table (db (view s'))) = 3%nat
    /\ size (agencies_table (committed s')) = 2%nat
    /\ length (cfr_references_table (committed s')) = 3%nat.
Proof. eexists. split; [reflexivity|]. by vm_compute. Qed.

(** X18. The versioner load commits after every section: when it was
    given at least one row, the file holds everything the loader's
    connection has written so far, the uncommitted agencies of the admin
    load included; given no row, it changes nothing. *)
Theorem load_versioner_data_commits cfr_data s :
  exists s',
    load_versioner_data_call (SectionRows cfr_data) s = (s', None)
    /\ load_versioner_data (view s) cfr_data = Ok (view s')
    /\ (cfr_data <> [] -> committed s' = db (view s'))
    /\ (cfr_data = [] -> s' = s).
Proof.
  destruct (sections_call_loop cfr_data s) as (s' & Hcall & Hload & Hcommitted).
  exists s'. split_and!; [done|done| |].
  - intros Hne. by destruct cfr_data.
  - intros ->. cbn in Hcall. by injection Hcall.
Qed.

(** *** The tracks *)

Lemma transform_admin_api_Raise params api_response e :
  params !! str "service" = Some (PStr (str "admin")) ->
  transform_admin_api params api_response = Raise e ->
  malformed_entry_error e.
Proof.
  intros Hservice H. unfold transform_admin_api, params_service in H.
  rewrite Hservice in H. cbn in H. rewrite decide_True in H by done.
  apply bind_Raise in H as [H|(? & _ & H)]; [|done].
  by eapply agencies_loop_Raise.
Qed.

Lemma transform_versioner_api_Raise fromstring params api_response e :
  params !! str "service" = Some (PStr (str "versioner")) ->
  transform_versioner_api fromstring params api_response = Raise e ->
  e = XMLSyntaxError.
Proof.
  intros Hservice H. unfold transform_versioner_api, params_service in H.
  rewrite Hservice in H. cbn in H. rewrite decide_True in H by done.
  destruct (fromstring api_response); [done|]. by injection H.
Qed.

Lemma extract_data_admin_Ok requests_get response_json self raw :
  extractor_params self !! str "service" = Some (PStr (str "admin")) ->
  extract_data requests_get response_json self = Ok raw ->
  exists data, raw = RawJson data.
Proof.
  intros Hservice. unfold extract_data.
  destruct (decide _); [done|]. rewrite Hservice, decide_True by done.
  intros H. inv_bind H. injection H as <-. by eexists.
Qed.

Lemma extract_data_versioner_Ok requests_get response_json self raw :
  extractor_params self !! str "service" = Some (PStr (str "versioner")) ->
  extract_data requests_get response_json self = Ok raw ->
  exists xml_content, raw = RawText xml_content.
Proof.
  intros Hservice. unfold extract_data.
  destruct (decide _); [done|]. rewrite Hservice.
  rewrite decide_False by done. rewrite decide_True by done.
  intros H. inv_bind H. inv_bind H. inv_bind H. injection H as <-. by eexists.
Qed.

(** What [ETLPipeline(user_params)] holds once it was built. *)
Lemma ETLPipeline_init_Ok user_params stored self :
  ETLPipeline_init user_params stored = Ok self ->
  config_params (admin_config self) = admin_params
  /\ Config_init (str "versioner") user_params = Ok (versioner_config self)
  /\ config_params (versioner_config self) !! str "service"
     = Some (PStr (str "versioner"))
  /\ db_loader self = session_open stored.
Proof.
  unfold ETLPipeline_init. rewrite Config_admin. cbn. intros H. inv_bind H.
  injection H as <-. cbn. split_and!; [done|done| |done].
  unfold Config_init in Hv. inv_bind Hv. injection Hv as <-. cbn.
  by eapply paramBuilder_service.
Qed.

Section PipelineProperties.
Variable requests_get : pystr -> get_outcome.
Variable response_json : pystr -> option json_payload.
Variable fromstring : pystr -> option element.

(** X19. Behind [transform_proxy] the service guards of the two transforms
    never fire: whatever the parameters and the payload, it does not end
    in the exception "Wrong Service Called". *)
Theorem transform_proxy_never_wrong_service params api_response f :
  transform_proxy fromstring params api_response = inr f ->
  f <> Raised (Exception (str "Wrong Service Called")).
Proof.
  unfold transform_proxy, params_service.
  destruct (params !! str "service") as [service|] eqn:Hservice;
    [|by intros [= <-]].
  destruct (decide (service = PStr (str "admin"))) as [->|_].
  { destruct api_response as [data|?]; [|by intros [= <-]].
    destruct (transform_admin_api params data) as [?|e] eqn:H; [done|].
    intros [= <-] [= ->].
    apply transform_admin_api_Raise in H; [|done].
    by destruct H as [?|[?|?]]. }
  destruct (decide (service = PStr (str "versioner"))) as [->|_];
    [|by intros [= <-]].
  destruct api_response as [?|xml_content]; [by intros [= <-]|].
  destruct (transform_versioner_api fromstring params xml_content) as [?|e] eqn:H;
    [done|].
  intros [= <-] [= ->]. by apply transform_versioner_api_Raise in H.
Qed.

(** A track that returns: its three steps succeeded. *)
Lemma run_admin_track cfg s s' outcome :
  config_params cfg = admin_params ->
  foreign_keys (view s) = false ->
  run_track requests_get response_json fromstring cfg load_admin_data_call s
  = (s', outcome) ->
  match outcome with
  | Some f =>
      s' = s /\ exists e, f = Raised e
                          /\ (e = UnboundLocalError (str "retrieved_data")
                              \/ malformed_entry_error e)
  | None =>
      exists data agency_rows,
        extract_data requests_get response_json (DataExtractor_init admin_params)
        = Ok (RawJson data)
        /\ transform_admin_api admin_params data = Ok agency_rows
        /\ load_admin_data_call (AdminRows agency_rows) s = (s', None)
        /\ load_admin_data (view s) agency_rows = Ok (view s')
        /\ foreign_keys (view s') = false
  end.
Proof.
  intros Hparams Hoff. unfold run_track. rewrite Hparams.
  destruct (extract_data _ _ _) as [raw|e] eqn:Hextract.
  - apply extract_data_admin_Ok in Hextract as Hraw; [|done].
    destruct Hraw as [data ->].
    unfold transform_proxy, params_service.
    assert (admin_params !! str "service" = Some (PStr (str "admin"))) as ->
      by reflexivity.
    rewrite decide_True by done.
    destruct (transform_admin_api admin_params data) as [agency_rows|e] eqn:Htransform.
    + cbn [lift_result].
      destruct (load_admin_data_call_unchecked agency_rows s Hoff)
        as (s1 & Hcall & Hload & Hfk & _).
      rewrite Hcall. intros [= <- <-]. by exists data, agency_rows.
    + cbn [lift_result]. intros [= <- <-]. split; [done|]. exists e.
      split; [done|]. right.
      eapply (transform_admin_api_Raise admin_params); [reflexivity|exact Htransform].
  - intros [= <- <-]. split; [done|]. exists e. split; [done|]. left.
    unfold extract_data in Hextract.
    destruct (decide _) as [Hempty|_] in Hextract; [done|].
    assert (extractor_params (DataExtractor_init admin_params) !! str "service"
            = Some (PStr (str "admin"))) as Hservice by reflexivity.
    rewrite Hservice in Hextract. rewrite decide_True in Hextract by done.
    apply bind_Raise in Hextract as [H|(? & _ & H)]; [|done].
    by apply read_local_Raise in H.
Qed.

Lemma run_versioner_track user_params cfg s s' outcome :
  Config_init (str "versioner") user_params = Ok cfg ->
  run_track requests_get response_json fromstring cfg load_versioner_data_call s
  = (s', outcome) ->
  match outcome with
  | Some f =>
      s' = s /\ exists e, f = Raised e
                          /\ (e = UnboundLocalError (str "xml_content")
                              \/ e = XMLSyntaxError)
  | None =>
      exists xml_content cfr_data,
        extract_data requests_get response_json
                     (DataExtractor_init (config_params cfg))
        = Ok (RawText xml_content)
        /\ transform_versioner_api fromstring (config_params cfg) xml_content
           = Ok cfr_data
        /\ load_versioner_data_call (SectionRows cfr_data) s = (s', None)
        /\ load_versioner_data (view s) cfr_data = Ok (view s')
        /\ (cfr_data <> [] -> committed s' = db (view s'))
        /\ (cfr_data = [] -> s' = s)
  end.
Proof.
  intros Hcfg. unfold run_track.
  assert (config_params cfg !! str "service" = Some (PStr (str "versioner")))
    as Hservice.
  { unfold Config_init in Hcfg. inv_bind Hcfg. injection Hcfg as <-.
    by eapply paramBuilder_service. }
  destruct (extract_data _ _ _) as [raw|e] eqn:Hextract.
  - apply extract_data_versioner_Ok in Hextract as Hraw; [|done].
    destruct Hraw as [xml_content ->].
    unfold transform_proxy, params_service. rewrite Hservice.
    rewrite decide_False by done. rewrite decide_True by done.
    destruct (transform_versioner_api _ _ _) as [cfr_data|e] eqn:Htransform.
    + cbn.
      destruct (sections_call_loop cfr_data s) as (s1 & Hcall & Hload & Hcommitted).
      cbn [load_versioner_data_call]. rewrite Hcall. intros [= <- <-].
      exists xml_content, cfr_data. split_and!; try done.
      * intros Hne. by destruct cfr_data.
      * intros ->. cbn in Hcall. by injection Hcall.
    + cbn. intros [= <- <-]. split; [done|]. exists e. split; [done|].
      right. by eapply transform_versioner_api_Raise.
  - intros [= <- <-]. split; [done|]. exists e. split; [done|]. left.
    unfold Config_init in Hcfg. inv_bind Hcfg. injection Hcfg as <-. cbn in *.
    destruct (paramBuilder_versioner_keys _ _ Hv) as [[d Hd] [t Ht]].
    unfold extract_data, dict_getitem in Hextract. cbn in Hextract.
    destruct (decide (v = ∅)) as [->|_]; [by rewrite lookup_empty in Hservice|].
    rewrite Hservice in Hextract.
    rewrite decide_False in Hextract by done.
    rewrite decide_True in Hextract by done.
    rewrite Hd, Ht in Hextract. cbn in Hextract.
    apply bind_Raise in Hextract as [H|(? & _ & H)]; [|done].
    by apply read_local_Raise in H.
Qed.


Lemma run_pipeline_None user_params stored self s :
  ETLPipeline_init user_params stored = Ok self ->
  run_pipeline requests_get response_json fromstring self = (s, None) ->
  exists data agency_rows xml_content cfr_data conn1,
    extract_data requests_get response_json (DataExtractor_init admin_params)
    = Ok (RawJson data)
    /\ transform_admin_api admin_params data = Ok agency_rows
    /\ extract_data requests_get response_json
                    (DataExtractor_init (config_params (versioner_config self)))
       = Ok (RawText xml_content)
    /\ transform_versioner_api fromstring (config_params (versioner_config self))
                               xml_content = Ok cfr_data
    /\ load_admin_data (DatabaseLoader_init stored) agency_rows = Ok conn1
    /\ load_versioner_data conn1 cfr_data = Ok (view s)
    /\ (cfr_data <> [] -> committed s = db (view s)).
Proof.
  intros Hinit Hrun.
  apply ETLPipeline_init_Ok in Hinit as (Hadmin & Hversioner & _ & Hloader).
  unfold run_pipeline in Hrun. rewrite Hloader in Hrun.
  destruct (run_track _ _ _ (admin_config self) _ _) as [s1 [f1|]] eqn:Htrack;
    [done|].
  apply run_admin_track in Htrack
    as (data & agency_rows & Hextract & Htransform & _ & Hview & _); [|done|done].
  eapply run_versioner_track in Hrun
    as (xml_content & cfr_data & Hextract2 & Htransform2 & _ & Hview2 & Hcommitted & _);
    [|exact Hversioner].
  exists data, agency_rows, xml_content, cfr_data, (view s1).
  by split_and!.
Qed.
(** X21. A run that returns went through all six steps: both fetches
    passed, both transforms returned, and the loader's connection reads
    the stored database with the agency rows loaded and then the section
    rows.  If the run had at least one section row, all of it is
    committed to the file. *)
Theorem run_pipeline_returns user_params stored self s :
  ETLPipeline_init user_params stored = Ok self ->
  run_pipeline requests_get response_json fromstring self = (s, None) ->
  exists data agency_rows xml_content cfr_data conn1,
    extract_data requests_get response_json (DataExtractor_init admin_params)
    = Ok (RawJson data)
    /\ transform_admin_api admin_params data = Ok agency_rows
    /\ extract_data requests_get response_json
                    (DataExtractor_init (config_params (versioner_config self)))
       = Ok (RawText xml_content)
    /\ transform_versioner_api fromstring (config_params (versioner_config self))
                               xml_content = Ok cfr_data
    /\ load_admin_data (DatabaseLoader_init stored) agency_rows = Ok conn1
    /\ load_versioner_data conn1 cfr_data = Ok (view s)
    /\ (cfr_data <> [] -> committed s = db (view s)).
Proof. apply run_pipeline_None. Qed.

End PipelineProperties.


(** After that failed versioner fetch the loader's connection reads both
    agencies of the fixture, and the file holds only the first: the
    second was inserted after the last reference and never committed. *)
Example run_pipeline_versioner_fetch_fails_committed :
  exists self s f,
    ETLPipeline_init (Some title_1_user_params) empty_database = Ok self
    /\ run_pipeline not_modified_network (fun _ => Some doe_fixture)
                    title_fixture_parser self = (s, Some f)
    /\ size (agencies_table (db (view s))) = 2%nat
    /\ size (agencies_table (committed s)) = 1%nat.
Proof.
  eexists _, _, _. split; [vm_compute; reflexivity|].
  split; [vm_compute; reflexivity|]. by vm_compute.
Qed.

Lemma run_pipeline_returns_title_1 :
  exists self s,
    ETLPipeline_init (Some title_1_user_params) empty_database = Ok self
    /\ run_pipeline run_network (fun _ => Some doe_fixture)
                    title_fixture_parser self = (s, None)
    /\ committed s = db (view s)
    /\ size (agencies_table (committed s)) = 2%nat
    /\ length (cfr_sections_table (committed s)) = 2%nat.
Proof.
  eexists _, _. split; [vm_compute; reflexivity|].
  split; [vm_compute; reflexivity|].
  edestruct (run_pipeline_returns run_network (fun _ => Some doe_fixture)
               title_fixture_parser (Some title_1_user_params) empty_database)
    as (data & agency_rows & xml_content & cfr_data & conn1
        & _ & _ & Hextract & Htransform & _ & _ & Hcommitted);
    [vm_compute; reflexivity|vm_compute; reflexivity|].
  split; [|by vm_compute].
  apply Hcommitted. intros ->.
  vm_compute in Hextract. injection Hextract as <-.
  vm_compute in Htransform. discriminate.
Defined.

(** ** The orchestrator *)

Lemma load_admin_data_call_written agency_rows :
  forall s s',
    foreign_keys (view s) = false ->
    written_rows_committed s ->
    load_admin_data_call (AdminRows agency_rows) s = (s', None) ->
    written_rows_committed s'.
Proof.
  induction agency_rows as [|x l IH]; intros s s' Hoff Hs Hcall.
  - cbn in Hcall. by injection Hcall as <-.
  - destruct (load_one_agency_call x s Hoff)
      as (s1 & s2 & Hins & Hrefs & Hone & Hfk2 & Hcommitted2).
    rewrite load_admin_data_call_cons, Hins, Hrefs in Hcall.
    apply (IH s2 s' Hfk2); [|exact Hcall].
    destruct (load_admin_data_unchecked [x] (view s) Hoff)
      as (c & Hload & _ & Hsec & _ & _ & _ & _ & new & Htab & Hcont & _).
    rewrite Hone in Hload. injection Hload as <-.
    destruct Hs as [Href Hsections]. unfold written_rows_committed.
    destruct (cfr_references x) as [|ref refs] eqn:Hx.
    + rewrite Hcommitted2, Href, Hsections, Hsec, Htab.
      assert (new = []) as ->; [|by rewrite app_nil_r].
      apply (f_equal length) in Hcont. rewrite length_fmap in Hcont.
      unfold bound_references in Hcont. cbn in Hcont. rewrite Hx in Hcont.
      by destruct new.
    + by rewrite Hcommitted2.
Qed.

Lemma load_versioner_data_call_written cfr_data s s' :
  written_rows_committed s ->
  load_versioner_data_call (SectionRows cfr_data) s = (s', None) ->
  written_rows_committed s'.
Proof.
  intros Hs Hcall.
  destruct (sections_call_loop cfr_data s) as (s1 & Hcall1 & _ & Hcommitted).
  cbn [load_versioner_data_call] in Hcall. rewrite Hcall1 in Hcall.
  injection Hcall as <-.
  destruct cfr_data; [|unfold written_rows_committed; by rewrite Hcommitted].
  cbn in Hcall1. by injection Hcall1 as <-.
Qed.


Section OrchestratorProperties.
Variable requests_get : pystr -> get_outcome.
Variable response_json : pystr -> option json_payload.
Variable titles_json : pystr -> option json_titles.
Variable fromstring : pystr -> option element.
Variable today_str : pystr.


(** A run that returns, with the calls of its two loads. *)
Lemma run_pipeline_None_calls user_params stored self s :
  ETLPipeline_init user_params stored = Ok self ->
  run_pipeline requests_get response_json fromstring self = (s, None) ->
  exists data agency_rows s1 cfr_data,
    extract_data requests_get response_json (DataExtractor_init admin_params)
    = Ok (RawJson data)
    /\ transform_admin_api admin_params data = Ok agency_rows
    /\ load_admin_data_call (AdminRows agency_rows) (session_open stored) = (s1, None)
    /\ load_admin_data (DatabaseLoader_init stored) agency_rows = Ok (view s1)
    /\ load_versioner_data_call (SectionRows cfr_data) s1 = (s, None)
    /\ load_versioner_data (view s1) cfr_data = Ok (view s).
Proof.
  intros Hinit Hrun.
  apply ETLPipeline_init_Ok in Hinit as (Hadmin & Hversioner & _ & Hloader).
  unfold run_pipeline in Hrun. rewrite Hloader in Hrun.
  destruct (run_track _ _ _ (admin_config self) _ _) as [s1 [f1|]] eqn:Htrack;
    [done|].
  apply run_admin_track in Htrack
    as (data & agency_rows & Hextract & Htransform & Hcall & Hview & _);
    [|done|done].
  eapply run_versioner_track in Hrun
    as (xml_content & cfr_data & _ & _ & Hcall2 & Hview2 & _); [|exact Hversioner].
  by exists data, agency_rows, s1, cfr_data.
Qed.

(** One title whose run returns: the file gained the references of the
    admin rows, once. *)
Lemma run_title_None dates stored n stored' :
  run_title requests_get response_json fromstring today_str dates stored n
  = (stored', None) ->
  exists data agency_rows new,
    extract_data requests_get response_json (DataExtractor_init admin_params)
    = Ok (RawJson data)
    /\ transform_admin_api admin_params data = Ok agency_rows
    /\ cfr_references_table stored' = cfr_references_table stored ++ new
    /\ reference_content <$> new = agency_rows ≫= bound_references.
Proof.
  unfold run_title.
  destruct (ETLPipeline_init _ stored) as [run|] eqn:Hinit; [|done].
  destruct (run_pipeline _ _ _ run) as [s outcome] eqn:Hrun.
  intros [= <- ->].
  destruct (run_pipeline_None_calls _ _ _ _ Hinit Hrun)
    as (data & agency_rows & s1 & cfr_data & Hextract & Htransform
        & Hcall1 & Hview1 & Hcall2 & Hview2).
  assert (written_rows_committed s) as [Href _].
  { eapply load_versioner_data_call_written; [|exact Hcall2].
    eapply load_admin_data_call_written; [| |exact Hcall1]; [done|by split]. }
  destruct (load_admin_data_unchecked agency_rows (DatabaseLoader_init stored) eq_refl)
    as (c1 & Hload1 & _ & _ & _ & _ & _ & _ & new & Htab & Hcont & _).
  rewrite Hview1 in Hload1. injection Hload1 as <-.
  destruct (load_versioner_data_appends cfr_data (view s1))
    as (c2 & Hload2 & _ & _ & _ & Hrefs2 & _).
  rewrite Hview2 in Hload2. injection Hload2 as <-.
  exists data, agency_rows, new. split_and!; [done|done| |done].
  by rewrite Href, Hrefs2, Htab.
Qed.

Lemma run_titles_None dates numbers :
  forall stored stored' data agency_rows,
    run_titles requests_get response_json fromstring today_str dates stored numbers
    = (stored', None) ->
    extract_data requests_get response_json (DataExtractor_init admin_params)
    = Ok (RawJson data) ->
    transform_admin_api admin_params data = Ok agency_rows ->
    reference_content <$> cfr_references_table stored'
    = (reference_content <$> cfr_references_table stored)
      ++ concat (replicate (length numbers) (agency_rows ≫= bound_references)).
Proof.
  induction numbers as [|n rest IH];
    intros stored stored' data agency_rows Hrun Hextract Htransform.
  - cbn in Hrun. injection Hrun as <-. by rewrite app_nil_r.
  - cbn [run_titles] in Hrun.
    destruct (run_title _ _ _ _ dates stored n) as [stored1 [f|]] eqn:Hone; [done|].
    apply run_title_None in Hone
      as (data' & rows' & new & Hextract' & Htransform' & Htab & Hcont).
    rewrite Hextract in Hextract'. injection Hextract' as <-.
    rewrite Htransform in Htransform'. injection Htransform' as <-.
    rewrite (IH _ _ _ _ Hrun Hextract Htransform), Htab, fmap_app, Hcont.
    cbn [length replicate concat]. by rewrite <- app_assoc.
Qed.



(** X22. When [run_initial_etl] completes, the file has gained the
    references of the agency payload 49 times over, once for every title
    processed: each title's run repeats the whole admin track, and the
    reference rows are appended without a check for what is stored. *)
Theorem run_initial_etl_completed_references stored stored' :
  run_initial_etl requests_get response_json titles_json fromstring today_str stored
  = (stored', inl COMPLETED_MESSAGE) ->
  exists data agency_rows,
    extract_data requests_get response_json (DataExtractor_init admin_params)
    = Ok (RawJson data)
    /\ transform_admin_api admin_params data = Ok agency_rows
    /\ reference_content <$> cfr_references_table stored'
       = (reference_content <$> cfr_references_table stored)
         ++ concat (replicate 49 (agency_rows ≫= bound_references)).
Proof.
  unfold run_initial_etl.
  destruct (get_titles_data _ _) as [titles_data|]; [|by intros [= _ ?]].
  destruct (j_titles titles_data) as [titles|]; [|by intros [= _ ?]].
  destruct (title_amendment_dates titles) as [dates|]; [|done].
  destruct (run_titles _ _ _ _ dates stored scheduled_titles)
    as [stored1 [f|]] eqn:Hrun; [done|].
  intros [= <-].
  assert (exists data agency_rows,
             extract_data requests_get response_json (DataExtractor_init admin_params)
             = Ok (RawJson data)
             /\ transform_admin_api admin_params data = Ok agency_rows)
    as (data & agency_rows & Hextract & Htransform).
  { change scheduled_titles with (1 :: List.tl scheduled_titles) in Hrun.
    cbn [run_titles] in Hrun.
    destruct (run_title _ _ _ _ dates stored 1) as [stored2 [f|]] eqn:Hone; [done|].
    apply run_title_None in Hone as (data & rows & _ & ? & ? & _).
    by exists data, rows. }
  exists data, agency_rows. split_and!; [done|done|].
  by rewrite (run_titles_None _ _ _ _ _ _ Hrun Hextract Htransform).
Qed.

End OrchestratorProperties.

Lemma run_initial_etl_completed_example :
  exists stored',
    run_initial_etl always_ok_network (fun _ => Some doe_fixture)
                    (fun _ => Some {| j_titles := Some [] |})
                    (fun _ => Some title_fixture) (str "2025-01-01")
                    empty_database
    = (stored', inl COMPLETED_MESSAGE)
    /\ length (cfr_references_table stored') = 49%nat
    /\ size (agencies_table stored') = 2%nat.
Proof.
  eexists. split; [vm_compute; reflexivity|].
  edestruct (run_initial_etl_completed_references
               always_ok_network (fun _ => Some doe_fixture)
               (fun _ => Some {| j_titles := Some [] |})
               (fun _ => Some title_fixture) (str "2025-01-01") empty_database)
    as (data & agency_rows & Hextract & Htransform & Hcontent);
    [vm_compute; reflexivity|].
  vm_compute in Hextract. injection Hextract as <-.
  vm_compute in Htransform. injection Htransform as <-.
  split; [|by vm_compute].
  apply (f_equal length) in Hcontent. rewrite length_fmap in Hcontent.
  rewrite Hcontent. by vm_compute.
Defined.


(** ** The versioner transform: no section with all its ancestors is left out *)

Section VersionerCompleteness.
Variable fromstring : pystr -> option element.

(** X24. Every section element that sits below a part, below a
    subchapter, below a chapter, below a title gets its row: for each such
    chain of elements the returned rows hold the row built from it. *)
Theorem versioner_every_chain_has_row params api_response root rs
    div1 div3 div4 div5 div8 :
  fromstring api_response = Some root ->
  transform_versioner_api fromstring params api_response = Ok rs ->
  nested_in root div1 div3 div4 div5 div8 ->
  exists r,
    r ∈ rs
    /\ title_number r = of_optional (get_attribute (str "N") div1)
    /\ chapter_number r = of_optional (get_attribute (str "N") div3)
    /\ subchapter_number r = of_optional (get_attribute (str "N") div4)
    /\ part_number r = of_optional (get_attribute (str "N") div5)
    /\ section_number r = of_optional (get_attribute (str "N") div8)
    /\ section_title r = PStr (head_text div8)
    /\ body r = PStr (body_text div8).
Proof.
  unfold transform_versioner_api. intros Hparse H (H1 & H3 & H4 & H5 & H8).
  inv_bind H. destruct (decide _); [|done]. rewrite Hparse in H.
  injection H as <-. eexists. split.
  - apply list_elem_of_bind. exists div1. split; [|exact H1].
    apply list_elem_of_bind. exists div3. split; [|exact H3].
    apply list_elem_of_bind. exists div4. split; [|exact H4].
    apply list_elem_of_bind. exists div5. split; [|exact H5].
    apply list_elem_of_bind. exists div8. split; [|exact H8].
    apply list_elem_of_here.
  - by split_and!.
Qed.
End VersionerCompleteness.

Lemma versioner_first_section_has_row :
  exists rs r,
    transform_versioner_api title_fixture_parser versioner_params
                            (str "<ECFR>...</ECFR>") = Ok rs
    /\ r ∈ rs
    /\ section_number r = PStr (str "1.1")
    /\ body r = PStr (str "First  term  defined. Second.").
Proof.
  destruct (versioner_every_chain_has_row title_fixture_parser versioner_params
              (str "<ECFR>...</ECFR>") title_fixture _
              fixture_div1 fixture_div3 fixture_div4 fixture_div5 fixture_div8
              eq_refl transform_versioner_api_fixture)
    as (r & Hin & _ & _ & _ & _ & Hnumber & _ & Hbody).
  - repeat split; apply list_elem_of_In; vm_compute; auto.
  - eexists _, r. split; [apply transform_versioner_api_fixture|].
    split; [exact Hin|]. split; [exact Hnumber|exact Hbody].
Defined.

Lemma transform_proxy_text_for_admin :
  AttributeError (str "str") (str "get")
  <> Raised (Exception (str "Wrong Service Called")).
Proof.
  apply (transform_proxy_never_wrong_service title_fixture_parser admin_params
           (RawText (str "<ECFR>...</ECFR>"))).
  reflexivity.
Defined.
